(** * founds.py: golden-ratio digit engine and run scanner

    A shallow embedding of [founds.py]:
    - [get_phi_prefix], over a model of the operations of Python's
      [decimal] module that the program calls,
    - [find_first_runs] and [run_debug_check],
    - the streaming loops of [curses_main] (static prefix, then the
      live generator), with the curses windows kept as explicit state,
    followed by the properties proved about them.  Strings are
    strings of code points below 256; positions are 1-based and count
    the leading "1" and the decimal point, as in the program. *)

From Bignums Require Import BigN.
From stdpp Require Import base gmap.
From Stdlib Require Import ZArith Lia String Ascii List Bool.
Import ListNotations.

Local Open Scope string_scope.
Local Open Scope Z_scope.

(* ================================================================== *)
(** * 1. Python built-ins used by the program *)
(* ================================================================== *)

Module Py.

(** [ch.isdigit()] on code points below 256: the ASCII digits and the
    three Latin-1 superscript digits (U+00B2, U+00B3, U+00B9). *)
Definition isdigit (ch : ascii) : bool :=
  let n := N_of_ascii ch in
  ((48 <=? n)%N && (n <=? 57)%N) || (n =? 178)%N || (n =? 179)%N || (n =? 185)%N.

(** the characters '0'..'9' *)
Definition is_decimal_digit (ch : ascii) : bool :=
  let n := N_of_ascii ch in (48 <=? n)%N && (n <=? 57)%N.

Definition digit_char (d : Z) : ascii := ascii_of_N (48 + Z.to_N d).

Definition digit_val (ch : ascii) : Z := Z.of_N (N_of_ascii ch) - 48.

(** [len(s)] *)
Definition len (s : string) : Z := Z.of_nat (String.length s).

(** the characters of [s] in order, as [for ch in s] visits them *)
Definition chars (s : string) : list ascii := list_ascii_of_string s.

(** [ch * n]: a one-character string repeated; empty for [n <= 0]. *)
Fixpoint repeat_char (ch : ascii) (n : nat) : string :=
  match n with
  | O => EmptyString
  | S n' => String ch (repeat_char ch n')
  end.

Definition str_mul (ch : ascii) (n : Z) : string := repeat_char ch (Z.to_nat n).

Fixpoint take (n : nat) (s : string) : string :=
  match n, s with
  | S n', String c s' => String c (take n' s')
  | _, _ => EmptyString
  end.

Fixpoint drop (n : nat) (s : string) : string :=
  match n, s with
  | S n', String _ s' => drop n' s'
  | _, _ => s
  end.

(** [s[:n]]; a negative [n] counts from the end. *)
Definition slice_to (s : string) (n : Z) : string :=
  if 0 <=? n then take (Z.to_nat n) s
  else take (Z.to_nat (len s + n)) s.

(** [s[n:]] *)
Definition slice_from (s : string) (n : Z) : string :=
  if 0 <=? n then drop (Z.to_nat n) s
  else drop (Z.to_nat (len s + n)) s.

(** [str(c)] for an integer [c >= 0]: the digits are produced from the
    least significant one; [Z.log2 c] bounds the number of divisions. *)
Fixpoint str_nonneg_aux (fuel : nat) (c : Z) (acc : string) : string :=
  let acc' := String (digit_char (c mod 10)) acc in
  match fuel with
  | O => acc'
  | S fuel' => if c <? 10 then acc' else str_nonneg_aux fuel' (c / 10) acc'
  end.

Definition str_nonneg (c : Z) : string :=
  str_nonneg_aux (Z.to_nat (Z.log2 c)) c EmptyString.

(** [str(c)] for any integer *)
Definition str_int (c : Z) : string :=
  if c <? 0 then String "-" (str_nonneg (- c)) else str_nonneg c.

End Py.

(* ================================================================== *)
(** * 2. The [decimal] operations behind [get_phi_prefix]

    The [decimal] module is Python's, not the program's, so its
    operations are modelled here: finite, positive decimals
    [d_int * 10 ^ d_exp] under a context with precision [prec],
    rounding ROUND_HALF_EVEN (the default context) and exponent limits
    never reached by values between 1 and 10.  The operations follow
    the reference implementation of the module ([_pydecimal]): [_fix],
    [sqrt], [__add__] with [_normalize], [__truediv__] and [__format__]
    with the presentation type 'f'.  The limit MAX_PREC on the
    precision is checked where the program sets the precision
    ([valid_prec], in section 3). *)
(* ================================================================== *)

Module Dec.

Record Decimal := mk { d_int : Z; d_exp : Z }.

(** [Decimal(n)] for an integer [n >= 0] *)
Definition of_int (n : Z) : Decimal := mk n 0.

(** [len(self._int)] *)
Definition ndigits (c : Z) : Z := Py.len (Py.str_nonneg c).

(** [_fix]: round to at most [prec] digits, ties to even. *)
Definition fix_ (prec : Z) (d : Decimal) : Decimal :=
  let exp_min := ndigits (d_int d) + d_exp d - prec in
  if d_exp d <? exp_min then
    let cut := exp_min - d_exp d in
    let hi := d_int d / 10 ^ cut in
    let lo := d_int d mod 10 ^ cut in
    let up := (10 ^ cut <? 2 * lo) || ((2 * lo =? 10 ^ cut) && Z.odd hi) in
    let coeff := if up then hi + 1 else hi in
    if prec <? ndigits coeff then mk (coeff / 10) (exp_min + 1)
    else mk coeff exp_min
  else d.

(** [sqrt] of a positive decimal: the floor of the square root of the
    rescaled coefficient is taken to one digit more than [prec], its
    last digit is moved off 0 and 5 when the root is inexact, and the
    result is rounded by [_fix]. *)
Definition sqrt (prec : Z) (d : Decimal) : Decimal :=
  let prec1 := prec + 1 in
  let odd_exp := Z.odd (d_exp d) in
  let c := if odd_exp then d_int d * 10 else d_int d in
  let l := if odd_exp then ndigits (d_int d) / 2 + 1
           else (ndigits (d_int d) + 1) / 2 in
  let shift := prec1 - l in
  let c' := if 0 <=? shift then c * 100 ^ shift else c / 100 ^ (- shift) in
  let exact0 := if 0 <=? shift then true else (c mod 100 ^ (- shift) =? 0) in
  let e := d_exp d / 2 - shift in
  let n := Z.sqrt c' in
  let exact := exact0 && (n * n =? c') in
  let ans :=
    if exact then
      mk (if 0 <=? shift then n / 10 ^ shift else n * 10 ^ (- shift)) (e + shift)
    else
      mk (if n mod 5 =? 0 then n + 1 else n) e in
  fix_ prec ans.

(** [_normalize]: bring two operands to a common exponent; an operand
    too small to matter at precision [prec] is replaced by a marker. *)
Definition normalize (op1 op2 : Decimal) (prec : Z) : Decimal * Decimal :=
  let swap := d_exp op1 <? d_exp op2 in
  let tmp := if swap then op2 else op1 in
  let other := if swap then op1 else op2 in
  let tmp_len := ndigits (d_int tmp) in
  let other_len := ndigits (d_int other) in
  let exp := d_exp tmp + Z.min (-1) (tmp_len - prec - 2) in
  let other' := if other_len + d_exp other - 1 <? exp then mk 1 exp else other in
  let tmp' := mk (d_int tmp * 10 ^ (d_exp tmp - d_exp other')) (d_exp other') in
  if swap then (other', tmp') else (tmp', other').

(** [__add__] of two positive decimals *)
Definition add (prec : Z) (a b : Decimal) : Decimal :=
  let '(op1, op2) := normalize a b prec in
  fix_ prec (mk (d_int op1 + d_int op2) (d_exp op1)).

(** the loop of [__truediv__] that strips trailing zeros of an exact
    quotient while the exponent is below the ideal one *)
Fixpoint strip_zeros (fuel : nat) (coeff exp ideal_exp : Z) : Z * Z :=
  match fuel with
  | O => (coeff, exp)
  | S fuel' =>
      if (exp <? ideal_exp) && (coeff mod 10 =? 0)
      then strip_zeros fuel' (coeff / 10) (exp + 1) ideal_exp
      else (coeff, exp)
  end.

(** [__truediv__] of two positive decimals *)
Definition div (prec : Z) (a b : Decimal) : Decimal :=
  let shift := ndigits (d_int b) - ndigits (d_int a) + prec + 1 in
  let exp := d_exp a - d_exp b - shift in
  let '(coeff, remainder) :=
    if 0 <=? shift then Z.div_eucl (d_int a * 10 ^ shift) (d_int b)
    else Z.div_eucl (d_int a) (d_int b * 10 ^ (- shift)) in
  let '(coeff', exp') :=
    if remainder =? 0 then
      let ideal_exp := d_exp a - d_exp b in
      strip_zeros (Z.to_nat (ideal_exp - exp)) coeff exp ideal_exp
    else ((if coeff mod 5 =? 0 then coeff + 1 else coeff), exp) in
  fix_ prec (mk coeff' exp').

(** [format(d, 'f')] of a positive decimal *)
Definition format_f (d : Decimal) : string :=
  let digits := Py.str_nonneg (d_int d) in
  let dotplace := d_exp d + Py.len digits in
  let '(intpart, fracpart) :=
    if dotplace <? 0 then
      ("0", Py.repeat_char "0" (Z.to_nat (- dotplace)) ++ digits)
    else if Py.len digits <? dotplace then
      (digits ++ Py.repeat_char "0" (Z.to_nat (dotplace - Py.len digits)), "")
    else
      (match Py.slice_to digits dotplace with
       | EmptyString => "0"
       | s => s
       end,
       Py.slice_from digits dotplace) in
  match fracpart with
  | EmptyString => intpart
  | _ => intpart ++ "." ++ fracpart
  end.

End Dec.

(* ================================================================== *)
(** * 3. [get_phi_prefix] *)
(* ================================================================== *)

(** [(Decimal(1) + Decimal(5).sqrt()) / Decimal(2)] at precision [prec] *)
Definition phi_decimal (prec : Z) : Dec.Decimal :=
  Dec.div prec (Dec.add prec (Dec.of_int 1) (Dec.sqrt prec (Dec.of_int 5)))
          (Dec.of_int 2).

(** [format(phi, 'f')] at precision [prec] *)
Definition format_phi (prec : Z) : string := Dec.format_f (phi_decimal prec).

(** The exceptions the program can raise. *)
Inductive exn := ValueError | KeyError | SystemExit (code : Z).

(** The outcome of a call that can raise and whose model can run out
    of fuel. *)
Inductive outcome (A : Type) : Type :=
| Returned (a : A)
| Raised (e : exn)
| Unfinished.

Arguments Returned {A} a.
Arguments Raised {A} e.
Arguments Unfinished {A}.

(** The largest precision of a context ([decimal.MAX_PREC] of the C
    implementation on a 64-bit build). *)
Definition MAX_PREC : Z := 999999999999999999.

(** [getcontext().prec = prec] raises [ValueError] unless [prec] is in
    [[1, MAX_PREC]]. *)
Definition valid_prec (prec : Z) : bool := (1 <=? prec) && (prec <=? MAX_PREC).

(** The [while len(s) < N] loop: [prec] is the context precision on
    entry and [s] the string computed at it.  A retry sets the
    precision to [prec + 50], which the context may refuse;
    [Unfinished] when the loop has not ended after [fuel] retries. *)
Fixpoint get_phi_prefix_loop (fuel : nat) (prec : Z) (s : string) (N : Z)
  : outcome string :=
  if Py.len s <? N then
    if valid_prec (prec + 50) then
      match fuel with
      | O => Unfinished
      | S fuel' => get_phi_prefix_loop fuel' (prec + 50) (format_phi (prec + 50)) N
      end
    else Raised ValueError
  else Returned (Py.slice_to s N).

(** [get_phi_prefix(N)]: the first attempt is made at precision
    [N + 50], which the context refuses outside [[1, MAX_PREC]]. *)
Definition get_phi_prefix (fuel : nat) (N : Z) : outcome string :=
  if valid_prec (N + 50) then
    get_phi_prefix_loop fuel (N + 50) (format_phi (N + 50)) N
  else Raised ValueError.

(* ================================================================== *)
(** * 4. [find_first_runs] and [run_debug_check] *)
(* ================================================================== *)

(** [range(a, b)] *)
Definition py_range (a b : Z) : list Z :=
  map (fun k => a + Z.of_nat k) (seq 0 (Z.to_nat (b - a))).

(** A run entry [(sequence, position)]; the position is [None] while
    nothing was found. *)
Definition entry : Type := string * option Z.

(** A Python [dict] with integer keys, as its items in insertion order. *)
Definition dict : Type := list (Z * entry).

Fixpoint dict_get (n : Z) (d : dict) : option entry :=
  match d with
  | [] => None
  | (k, v) :: d' => if k =? n then Some v else dict_get n d'
  end.

Definition PHI_PREFIX_LENGTH : Z := 100000.

Definition GROUND_TRUTH : dict :=
  [ (2, ("33", Some 7));
    (3, ("222", Some 131));
    (4, ("4444", Some 1218));
    (5, ("99999", Some 6401));
    (6, ("N/A", None));
    (7, ("N/A", None));
    (8, ("N/A", None));
    (9, ("N/A", None)) ].

(** [ch == run_char], where [run_char] may be [None] *)
Definition char_is (ch : ascii) (run_char : option ascii) : bool :=
  match run_char with
  | Some c => Ascii.eqb ch c
  | None => false
  end.

(** The inner loop of [find_first_runs] for one [n], from the index [i]
    of the next character and the run state reached so far; the [break]
    is the branch that returns. *)
Fixpoint first_run_from (n i : Z) (run_char : option ascii) (run_len : Z)
  (l : list ascii) : entry :=
  match l with
  | [] => ("N/A", None)
  | ch :: l' =>
      if negb (Py.isdigit ch) then first_run_from n (i + 1) None 0 l'
      else
        let run_len' := if char_is ch run_char then run_len + 1 else 1 in
        if run_len' =? n then (Py.str_mul ch n, Some ((i + 1) - (n - 1)))
        else first_run_from n (i + 1) (Some ch) run_len' l'
  end.

Definition first_run (phi_str : string) (n : Z) : entry :=
  first_run_from n 0 None 0 (Py.chars phi_str).

Definition find_first_runs (phi_str : string) (max_n : Z) : dict :=
  map (fun n => (n, first_run phi_str n)) (py_range 2 (max_n + 1)).

(** One row of [mismatches]: [(n, exp_seq, exp_pos, fnd_seq, fnd_pos)] *)
Record mismatch := Mismatch {
  mm_n : Z;
  mm_exp_seq : string; mm_exp_pos : option Z;
  mm_fnd_seq : string; mm_fnd_pos : option Z }.

Definition pos_eqb (a b : option Z) : bool :=
  match a, b with
  | Some x, Some y => x =? y
  | None, None => true
  | _, _ => false
  end.

(** The comparison loop over [range(2, 10)]; [None] stands for the
    [KeyError] of a missing key. *)
Fixpoint collect_mismatches (ns : list Z) (truth found : dict)
  : option (list mismatch) :=
  match ns with
  | [] => Some []
  | n :: ns' =>
      match dict_get n truth, dict_get n found with
      | Some (exp_seq, exp_pos), Some (fnd_seq, fnd_pos) =>
          match collect_mismatches ns' truth found with
          | Some rest =>
              if negb (String.eqb exp_seq fnd_seq) || negb (pos_eqb exp_pos fnd_pos)
              then Some (Mismatch n exp_seq exp_pos fnd_seq fnd_pos :: rest)
              else Some rest
          | None => None
          end
      | _, _ => None
      end
  end.

Definition nl : string := String "010" EmptyString.

Definition quote1 : ascii := "'"%char.
Definition quote2 : ascii := "034"%char.
Definition backslash : ascii := "\"%char.

Fixpoint str_mem (c : ascii) (s : string) : bool :=
  match s with
  | EmptyString => false
  | String c' s' => Ascii.eqb c c' || str_mem c s'
  end.

(** Two lowercase hexadecimal digits, as in the escape [\xhh]. *)
Definition hex_digit (d : N) : ascii :=
  if (d <? 10)%N then ascii_of_N (48 + d) else ascii_of_N (87 + d).

(** [str.isprintable] on one character (code points below 256): the
    controls, the DEL, the no-break space and the soft hyphen are
    not. *)
Definition isprintable (c : ascii) : bool :=
  let n := N_of_ascii c in
  ((32 <=? n) && (n <=? 126) || (161 <=? n) && negb (n =? 173))%N.

(** What [repr] writes for one character inside the quotes [q]. *)
Definition escape_char (q : ascii) (c : ascii) : string :=
  let n := N_of_ascii c in
  if Ascii.eqb c q || Ascii.eqb c backslash then String backslash (String c "")
  else if (n =? 9)%N then String backslash "t"
  else if (n =? 10)%N then String backslash "n"
  else if (n =? 13)%N then String backslash "r"
  else if isprintable c then String c ""
  else String backslash
         (String "x" (String (hex_digit (n / 16)) (String (hex_digit (n mod 16)) ""))).

Fixpoint escape (q : ascii) (s : string) : string :=
  match s with
  | EmptyString => EmptyString
  | String c s' => escape_char q c ++ escape q s'
  end.

(** [repr(s)] (code points below 256): single quotes, unless the
    string has a single quote and no double quote; the quote in use
    and the backslash are escaped with a backslash, tab, newline and
    carriage return are written [\t], [\n], [\r], and any other
    character that is not printable is written [\xhh]. *)
Definition py_repr (s : string) : string :=
  let q := if str_mem quote1 s && negb (str_mem quote2 s) then quote2 else quote1 in
  String q (escape q s ++ String q EmptyString).

(** an optional position inside an f-string *)
Definition fmt_pos (p : option Z) : string :=
  match p with
  | Some z => Py.str_int z
  | None => "None"
  end.

(** the three writes of the report for one mismatch *)
Definition report_lines (m : mismatch) : list string :=
  [ "  n = " ++ Py.str_int (mm_n m) ++ ":" ++ nl;
    "    Expected: seq = " ++ py_repr (mm_exp_seq m) ++ ", pos = "
      ++ fmt_pos (mm_exp_pos m) ++ nl;
    "    Found:    seq = " ++ py_repr (mm_fnd_seq m) ++ ", pos = "
      ++ fmt_pos (mm_fnd_pos m) ++ nl ++ nl ].

(** How a call ends: it returns or it raises ([sys.exit(code)] raises
    [SystemExit code]). *)
Inductive ending := Returns | Raises (e : exn).

(** What a call wrote to standard output (one string per write, text
    as UTF-8) and how it ended. *)
Record run := Run { stdout : list string; ended : ending }.

Definition banner : string :=
  "Debug-checking first 20,000 characters of φ…" ++ nl.

(** the two writes that open the report of a failed check *)
Definition failure_head : list string :=
  [banner; nl ++ "DEBUG CHECK FAILED! Discrepancies:" ++ nl ++ nl].

(** the write of a passed check *)
Definition passed_message : string :=
  "DEBUG CHECK PASSED: runs for n=2..9 are correct in first 20,000 characters."
    ++ nl ++ nl.

(** The body of [run_debug_check] after [prefix] is computed, for the
    reference table [truth] (the global [GROUND_TRUTH] in the program).
    The flushes and the one-second sleep of a passed check are left
    out. *)
Definition debug_check (truth : dict) (prefix : string) : run :=
  let found := find_first_runs prefix 9 in
  match collect_mismatches (py_range 2 10) truth found with
  | None => Run [banner] (Raises KeyError)
  | Some [] => Run [banner; passed_message] Returns
  | Some mismatches =>
      Run (failure_head ++ flat_map report_lines mismatches
             ++ ["Exiting due to logic errors." ++ nl])
          (Raises (SystemExit 1))
  end.

(** [run_debug_check()] with the global [GROUND_TRUTH] bound to
    [truth]; an exception of [get_phi_prefix] goes through after the
    banner.  [None] when [get_phi_prefix] has not returned within
    [fuel] retries. *)
Definition run_debug_check (truth : dict) (fuel : nat) : option run :=
  match get_phi_prefix fuel 20000 with
  | Returned prefix => Some (debug_check truth prefix)
  | Raised e => Some (Run [banner] (Raises e))
  | Unfinished => None
  end.

(* ================================================================== *)
(** * 5. [curses_main]: the streaming loops

    The two windows are kept as data: [header] holds the run each of
    the rows 2..9 of [header_win] reports and its start, with the
    colour pair of the row (the title, the legend of [print_legend],
    the elapsed time and the clipping to the terminal width are left
    out), [digit_win] the characters written to the scrolling window
    with their colour pair and bold flag, latest first.  The beep and
    the one-second pause of a milestone are counted in [pauses]. *)
(* ================================================================== *)

Definition RUN_COLOR_MAP (ch : ascii) : option Z :=
  if Py.is_decimal_digit ch then Some (Py.digit_val ch / 2 + 2) else None.

Definition HIGHLIGHT_PAIR (n : Z) : option Z :=
  match n with
  | 2 => Some 2 | 3 => Some 4 | 4 => Some 3 | 5 => Some 7
  | 6 => Some 8 | 7 => Some 9 | 8 => Some 10 | 9 => Some 11
  | _ => None
  end.

Record header_row := Row {
  row_seq : string; row_pos : option Z; row_pair : Z; row_reverse : bool }.

Record cell := Cell { cell_ch : ascii; cell_pair : Z; cell_bold : bool }.

Record screen := Screen {
  total_pos : Z;
  run_char : option ascii;
  run_len : Z;
  remaining : gset Z;
  header : gmap Z header_row;
  digit_win : list cell;
  pauses : nat }.

(** [set(range(2, 10))] *)
Definition all_lengths : gset Z := list_to_set (py_range 2 10).

(** rows 2..9 after the loop that writes "Len n: N/A" *)
Definition initial_header : gmap Z header_row :=
  list_to_map (map (fun n => (n, Row "N/A" None 1 false)) (py_range 2 10)).

Definition initial_screen : screen :=
  Screen 0 None 0 all_lengths initial_header [] 0.

(** The run update shared by both loops: continue the run or start one. *)
Definition advance_run (run_char : option ascii) (run_len : Z) (ch : ascii)
  : option ascii * Z :=
  match run_char with
  | None => (Some ch, 1)
  | Some c => if Ascii.eqb ch c then (Some c, run_len + 1) else (Some ch, 1)
  end.

(** The write to [digit_win] that ends an iteration. *)
Definition render (run_char : option ascii) (run_len : Z) (ch : ascii) : cell :=
  if 2 <=? run_len then
    match run_char with
    | Some c =>
        Cell ch (match RUN_COLOR_MAP c with Some p => p | None => 1 end)
             (Z.odd (Py.digit_val c) && Py.is_decimal_digit c)
    | None => Cell ch 1 false
    end
  else Cell ch 1 false.

(** One iteration of the loop over [static_prefix]. *)
Definition batch_step (st : screen) (ch : ascii) : screen :=
  let total := total_pos st + 1 in
  if negb (Py.isdigit ch) then
    Screen total None 0 (remaining st) (header st) (digit_win st) (pauses st)
  else
    let '(rc, rl) := advance_run (run_char st) (run_len st) ch in
    let win := render rc rl ch :: digit_win st in
    if decide (rl ∈ remaining st) then
      let start_pos := total - rl + 1 in
      let seq := match rc with Some c => Py.str_mul c rl | None => EmptyString end in
      let pair := match HIGHLIGHT_PAIR rl with Some p => p | None => 1 end in
      Screen total rc rl (remaining st ∖ {[ rl ]})
             (<[ rl := Row seq (Some start_pos) pair true ]> (header st))
             win (S (pauses st))
    else
      Screen total rc rl (remaining st) (header st) win (pauses st).

(** One iteration of the live loop, for the character the generator
    delivered. *)
Definition live_step (st : screen) (ch : ascii) : screen :=
  let total := total_pos st + 1 in
  if negb (Py.isdigit ch) then
    Screen total None 0 (remaining st) (header st) (digit_win st) (pauses st)
  else
    let '(rc, rl) := advance_run (run_char st) (run_len st) ch in
    Screen total rc rl (remaining st) (header st)
           (render rc rl ch :: digit_win st) (pauses st).

(** The loop over the characters of [static_prefix]. *)
Fixpoint batch_phase (st : screen) (l : list ascii) : screen :=
  match l with
  | [] => st
  | ch :: l' => batch_phase (batch_step st ch) l'
  end.

(** [phi_digit_generator]: where the generator is suspended. *)
Inductive generator :=
| GenStart
| GenYielded (printed : Z) (s : string).

(** [phi_digit_generator()]: the generator before its first [next]. *)
Definition phi_digit_generator : generator := GenStart.

(** The outer [while True] from its top, with [printed] characters
    delivered so far; [None] when no [yield] is reached within [fuel]
    rounds. *)
Fixpoint gen_resume (fuel : nat) (printed : Z) : option (ascii * generator) :=
  match fuel with
  | O => None
  | S fuel' =>
      let s := format_phi (printed + 10) in
      if printed <? Py.len s then
        match String.get (Z.to_nat printed) s with
        | Some ch => Some (ch, GenYielded printed s)
        | None => None
        end
      else gen_resume fuel' printed
  end.

(** [next(live_gen)] *)
Definition gen_next (fuel : nat) (g : generator) : option (ascii * generator) :=
  match g with
  | GenStart => gen_resume fuel 0
  | GenYielded printed s =>
      let printed' := printed + 1 in
      if printed' <? Py.len s then
        match String.get (Z.to_nat printed') s with
        | Some ch => Some (ch, GenYielded printed' s)
        | None => None
        end
      else gen_resume fuel printed'
  end.

(** [k] iterations of the live loop. *)
Fixpoint live_phase (fuel : nat) (k : nat) (st : screen) (g : generator)
  : option (screen * generator) :=
  match k with
  | O => Some (st, g)
  | S k' =>
      match gen_next fuel g with
      | Some (ch, g') => live_phase fuel k' (live_step st ch) g'
      | None => None
      end
  end.

(** The first [k] characters the live generator delivers. *)
Fixpoint live_chars (fuel : nat) (k : nat) (g : generator) : option (list ascii) :=
  match k with
  | O => Some []
  | S k' =>
      match gen_next fuel g with
      | Some (ch, g') =>
          match live_chars fuel k' g' with
          | Some l => Some (ch :: l)
          | None => None
          end
      | None => None
      end
  end.

(** How [curses_main] ends: at once on a terminal that is too small,
    by the interrupt in the live phase (with the screen and the
    generator as they are then), or by an exception. *)
Inductive session :=
| TooSmall
| Interrupted (st : screen) (g : generator)
| Failed (e : exn).

(** [curses_main] on a terminal of [h] rows and [w] columns, stopped by
    the interrupt after [k] live characters. *)
Definition curses_main (fuel : nat) (h w : Z) (k : nat) : option session :=
  if (h <? 20) || (w <? 80) then Some TooSmall
  else
    match get_phi_prefix fuel PHI_PREFIX_LENGTH with
    | Returned static_prefix =>
        match live_phase fuel k (batch_phase initial_screen (Py.chars static_prefix))
                         phi_digit_generator with
        | Some (st, g) => Some (Interrupted st g)
        | None => None
        end
    | Raised e => Some (Failed e)
    | Unfinished => None
    end.

(** [main] with the global [GROUND_TRUTH] bound to [truth]:
    [run_debug_check()], then [curses.wrapper(curses_main)] when that
    call returned; the second component is how [curses_main] ended,
    [None] when it was not reached. *)
Definition main (truth : dict) (fuel : nat) (h w : Z) (k : nat)
  : option (run * option session) :=
  match run_debug_check truth fuel with
  | Some r =>
      match ended r with
      | Returns =>
          match curses_main fuel h w k with
          | Some c => Some (r, Some c)
          | None => None
          end
      | Raises _ => Some (r, None)
      end
  | None => None
  end.

(** ** The header window at start-up: [print_legend] and the status
    lines *)

(** A cell of a curses window: the character, its colour pair and the
    two attributes the program uses. *)
Record glyph := Glyph {
  gl_ch : ascii; gl_pair : Z; gl_reverse : bool; gl_bold : bool }.

(** the cells of a text written with one attribute *)
Definition glyphs (text : string) (pair : Z) (rev bold : bool) : list glyph :=
  map (fun c => Glyph c pair rev bold) (Py.chars text).

(** writing over a row from its first column *)
Fixpoint overwrite (text : list glyph) (row : list (option glyph))
  : list (option glyph) :=
  match text with
  | [] => row
  | g :: text' => Some g :: overwrite text' (tl row)
  end.

(** [win.addstr(y, x, text, attr)], on the row [y] given by its cells
    from column 0 ([None] is a blank never written): the text replaces
    what the row holds from column [x] on, over the length of the text,
    and leaves the rest. *)
Fixpoint addstr (x : nat) (text : list glyph) (row : list (option glyph))
  : list (option glyph) :=
  match x with
  | O => overwrite text row
  | S x' => hd None row :: addstr x' text (tl row)
  end.

(** the colour pair of the [if]/[elif] chain of [print_legend];
    0 when no branch is taken *)
Definition legend_pair (n : Z) : Z :=
  if n =? 2 then 2 else if n =? 3 then 4 else if n =? 4 then 3
  else if n =? 5 then 7 else if n =? 6 then 8 else if n =? 7 then 9
  else if n =? 8 then 10 else if n =? 9 then 11 else 0.

(** [label[: width - 4]] of [print_legend] for the length [n] *)
Definition legend_label (width n : Z) : string :=
  Py.slice_to ("  " ++ Py.str_int n ++ " = "
                 ++ Py.str_mul (Py.digit_char n) n) (width - 4).

(** Row [n] of the header window after [print_legend] and after the
    loop that writes "Len n: N/A". *)
Definition header_row_drawn (width n : Z) : list (option glyph) :=
  addstr 2 (glyphs ("Len " ++ Py.str_int n ++ ": N/A") 1 false false)
    (addstr 2 (glyphs (legend_label width n) (legend_pair n) true false) []).

(* ================================================================== *)
(** * 6. Auxiliary definitions for the proofs *)
(* ================================================================== *)

(** The [k] low decimal digits of [c], most significant first. *)
Fixpoint digits_fixed (k : nat) (c : Z) (acc : string) : string :=
  match k with
  | O => acc
  | S k' => digits_fixed k' (c / 10) (String (Py.digit_char (c mod 10)) acc)
  end.

(** The number a string of decimal digits denotes. *)
Fixpoint digits_value (s : string) (acc : Z) : Z :=
  match s with
  | EmptyString => acc
  | String c s' => digits_value s' (10 * acc + Py.digit_val c)
  end.

Fixpoint all_chars (P : ascii -> bool) (s : string) : bool :=
  match s with
  | EmptyString => true
  | String c s' => P c && all_chars P s'
  end.

(** Rounding off the last digit of [c], ties to even: [_fix] when one
    digit is cut and no carry lengthens the coefficient. *)
Definition round1 (c : Z) : Z :=
  let hi := c / 10 in
  let lo := c mod 10 in
  if (10 <? 2 * lo) || ((2 * lo =? 10) && Z.odd hi) then hi + 1 else hi.

(** The coefficient of [phi_decimal prec] in terms of
    [n = floor (sqrt (5 * 100 ^ prec))]. *)
Definition phi_coeff_from (prec n : Z) : Z :=
  let c5 := round1 (if n mod 5 =? 0 then n + 1 else n) in
  let a := 10 ^ (prec - 1) + c5 in
  if (5 * a) mod 10 =? 0 then (5 * a) / 10 else round1 (5 * a).

Definition phi_coeff (prec : Z) : Z :=
  phi_coeff_from prec (Z.sqrt (5 * 100 ^ prec)).

(** The steps of [phi_decimal prec]: the unit [10 ^ (prec - 2)] the
    bounds are counted in, the floor of the square root, its last digit
    moved off 0 and 5, the coefficient of the rounded root, and the
    coefficient of the sum with 1. *)
Definition scale (prec : Z) : Z := 10 ^ (prec - 2).
Definition sqrt5_floor (prec : Z) : Z := Z.sqrt (5 * 100 ^ prec).
Definition sqrt5_sticky (prec : Z) : Z :=
  if sqrt5_floor prec mod 5 =? 0 then sqrt5_floor prec + 1 else sqrt5_floor prec.
Definition sqrt5_coeff (prec : Z) : Z := round1 (sqrt5_sticky prec).
Definition sum_coeff (prec : Z) : Z := 10 ^ (prec - 1) + sqrt5_coeff prec.

(** [floor (phi * 10 ^ k)]: the golden ratio cut after [k] fractional
    digits, from [phi = (1 + sqrt 5) / 2]. *)
Definition phi_floor (k : Z) : Z := (10 ^ k + Z.sqrt (5 * 100 ^ k)) / 2.

(** the fractional digits of [format_phi p] *)
Definition phi_frac (p : Z) : string :=
  digits_fixed (Z.to_nat (p - 1)) (phi_coeff p) EmptyString.


(** ** The run scanner over a history

    [h] is the part of the input already visited, latest character
    first. *)

(** how many copies of [c] the history starts with *)
Fixpoint lead (c : ascii) (h : list ascii) : Z :=
  match h with
  | c' :: h' => if Ascii.eqb c c' then 1 + lead c h' else 0
  | [] => 0
  end.

(** the run state after the history [h] *)
Definition trail (h : list ascii) : option ascii * Z :=
  match h with
  | c :: h' => if Py.isdigit c then (Some c, 1 + lead c h') else (None, 0)
  | [] => (None, 0)
  end.

(** no run in [h] has reached the length [n] *)
Definition no_run (n : Z) (h : list ascii) : Prop :=
  forall h1 h2 c, h = (h1 ++ h2)%list -> Py.isdigit c = true -> lead c h2 < n.

(** what row [n] of the header shows, as a run entry *)
Definition shown (st : screen) (n : Z) : option entry :=
  match header st !! n with
  | Some r => Some (row_seq r, row_pos r)
  | None => None
  end.

(** the scan of [s] finds no six equal digits in a row *)
Definition no_run_of_six (s : string) : bool :=
  match first_run s 6 with
  | (_, None) => true
  | _ => false
  end.

(** the last character of [s] is not "0" *)
Definition last_not_zero (s : string) : bool :=
  negb (String.eqb (Py.slice_from s (Py.len s - 1)) "0").

(** the table has an entry under each of the keys 2..9 *)
Definition has_keys (d : dict) : bool :=
  forallb (fun n => match dict_get n d with Some _ => true | None => false end)
          (py_range 2 10).

(** ** The streaming loops and the live generator *)

(** The bookkeeping of the first loop: awaited lengths show "N/A", the
    others a position, and every length found was one pause. *)
Definition tidy (st : screen) : Prop :=
  (forall n, n ∈ remaining st -> 2 <= n <= 9 /\ shown st n = Some ("N/A", None))
  /\ (forall n, 2 <= n <= 9 -> n ∉ remaining st ->
        exists seq pos, shown st n = Some (seq, Some pos))
  /\ (pauses st + size (remaining st) = 8)%nat.




(** ** Evaluation of [format_phi] on machine integers

    The same coefficient computed with [bigN], and its digits checked
    against it in blocks of 18. *)

Definition big_round1 (c : bigN) : bigN :=
  let hi := BigN.div c 10 in
  let lo := BigN.modulo c 10 in
  if BigN.ltb 10 (BigN.mul 2 lo) || (BigN.eqb (BigN.mul 2 lo) 10 && BigN.odd hi)
  then BigN.add hi 1 else hi.

Definition big_phi_coeff (prec : Z) : bigN :=
  let n := BigN.sqrt (BigN.mul 5 (BigN.pow_N 100 (Z.to_N prec))) in
  let c5 := big_round1 (if BigN.eqb (BigN.modulo n 5) 0 then BigN.add n 1 else n) in
  let a := BigN.add (BigN.pow_N 10 (Z.to_N (prec - 1))) c5 in
  let a5 := BigN.mul 5 a in
  if BigN.eqb (BigN.modulo a5 10) 0 then BigN.div a5 10 else big_round1 a5.

Definition block : bigN := BigN.pow_N 10 18.

(** [k] blocks of [b], lowest first in the recursion, highest first in
    the result. *)
Fixpoint to_blocks (k : nat) (b : bigN) (acc : list bigN) : list bigN :=
  match k with
  | O => acc
  | S k' => let (q, r) := BigN.div_eucl b block in to_blocks k' q (r :: acc)
  end.

Fixpoint blocks_value (l : list bigN) (acc : bigN) : bigN :=
  match l with
  | [] => acc
  | c :: l' => blocks_value l' (BigN.add (BigN.mul acc block) c)
  end.

Fixpoint blocks_string (l : list bigN) : string :=
  match l with
  | [] => EmptyString
  | c :: l' => digits_fixed 18 (BigN.to_Z c) (blocks_string l')
  end.

Definition fast_format_phi (prec : Z) : option string :=
  let q := big_phi_coeff prec in
  let k := Z.to_nat (prec / 18 + 1) in
  let l := to_blocks k q [] in
  if BigN.eqb (blocks_value l 0%bigN) q && forallb (fun c => BigN.ltb c block) l
  then
    match Py.drop (18 * k - Z.to_nat prec) (blocks_string l) with
    | String c s => Some (String c (String "." s))
    | EmptyString => None
    end
  else None.

Fixpoint dict_eqb (d1 d2 : dict) : bool :=
  match d1, d2 with
  | [], [] => true
  | (k1, (s1, p1)) :: d1', (k2, (s2, p2)) :: d2' =>
      (k1 =? k2) && String.eqb s1 s2 && pos_eqb p1 p2 && dict_eqb d1' d2'
  | _, _ => false
  end.

(* ================================================================== *)
(** * 7. Examples *)
(* ================================================================== *)

Example format_phi_10 : format_phi 10 = "1.618033988".
Proof. vm_compute. reflexivity. Qed.

Example fast_format_phi_10 : fast_format_phi 10 = Some "1.618033988".
Proof. vm_compute. reflexivity. Qed.

Example fast_format_phi_52 : fast_format_phi 52 = Some (format_phi 52).
Proof. vm_compute. reflexivity. Qed.

Example get_phi_prefix_12 : get_phi_prefix 0 12 = Returned "1.6180339887".
Proof. vm_compute. reflexivity. Qed.

Example find_first_runs_small :
  find_first_runs "1.61803398874989" 3
  = [(2, ("33", Some 7)); (3, ("N/A", None))].
Proof. vm_compute. reflexivity. Qed.

(* ================================================================== *)
(** * 8. Digit strings *)
(* ================================================================== *)

(** [lia] after the quotients and remainders by constants are replaced
    by their defining equations *)
Ltac dlia := Z.div_mod_to_equations; lia.

Section DigitStrings.

Lemma digit_cases (d : Z) :
  0 <= d < 10 ->
  d = 0 \/ d = 1 \/ d = 2 \/ d = 3 \/ d = 4 \/ d = 5 \/ d = 6 \/ d = 7 \/ d = 8 \/ d = 9.
Proof. lia. Qed.

Lemma digit_char_decimal (d : Z) :
  0 <= d < 10 -> Py.is_decimal_digit (Py.digit_char d) = true.
Proof.
  intros H. destruct (digit_cases d H) as [-> | [-> | [-> | [-> | [-> | [-> | [-> | [-> | [-> | ->]]]]]]]]];
    reflexivity.
Qed.

Lemma digit_val_char (d : Z) : 0 <= d < 10 -> Py.digit_val (Py.digit_char d) = d.
Proof.
  intros H. destruct (digit_cases d H) as [-> | [-> | [-> | [-> | [-> | [-> | [-> | [-> | [-> | ->]]]]]]]]];
    reflexivity.
Qed.

Lemma decimal_is_digit (c : ascii) : Py.is_decimal_digit c = true -> Py.isdigit c = true.
Proof. unfold Py.isdigit, Py.is_decimal_digit. intros ->. reflexivity. Qed.

Lemma mod10_range (c : Z) : 0 <= c mod 10 < 10.
Proof. apply Z.mod_pos_bound. lia. Qed.

Lemma pow10_pos (k : Z) : 0 <= k -> 0 < 10 ^ k.
Proof. intros. apply Z.pow_pos_nonneg; lia. Qed.

Lemma pow10_succ (k : Z) : 0 <= k -> 10 ^ (k + 1) = 10 * 10 ^ k.
Proof. intros. rewrite Z.pow_add_r by lia. lia. Qed.

Lemma pow100 (k : Z) : 0 <= k -> 100 ^ k = 10 ^ k * 10 ^ k.
Proof. intros. change 100 with (10 * 10). apply Z.pow_mul_l. Qed.

Lemma string_app_cons (c : ascii) (s t : string) :
  (String c s ++ t)%string = String c (s ++ t).
Proof. reflexivity. Qed.

Lemma string_app_nil_l (t : string) : (EmptyString ++ t)%string = t.
Proof. reflexivity. Qed.

Lemma string_app_assoc (s t u : string) : ((s ++ t) ++ u = s ++ (t ++ u))%string.
Proof.
  induction s as [|c s IH]; [reflexivity|].
  rewrite !string_app_cons, IH. reflexivity.
Qed.

Lemma string_app_nil_r (s : string) : (s ++ EmptyString)%string = s.
Proof.
  induction s as [|c s IH]; [reflexivity|].
  rewrite string_app_cons, IH. reflexivity.
Qed.

Lemma string_length_app (s t : string) :
  String.length (s ++ t) = (String.length s + String.length t)%nat.
Proof.
  induction s as [|c s IH]; [reflexivity|].
  rewrite string_app_cons. simpl. rewrite IH. reflexivity.
Qed.

Lemma digits_fixed_acc (k : nat) : forall c acc,
  digits_fixed k c acc = (digits_fixed k c EmptyString ++ acc)%string.
Proof.
  induction k as [|k IH]; intros c acc; simpl; [reflexivity|].
  rewrite IH. rewrite (IH _ (String _ EmptyString)).
  rewrite string_app_assoc. reflexivity.
Qed.

Lemma length_digits_fixed (k : nat) : forall c acc,
  String.length (digits_fixed k c acc) = (k + String.length acc)%nat.
Proof.
  induction k as [|k IH]; intros c acc; simpl; [reflexivity|].
  rewrite IH. simpl. lia.
Qed.

Lemma digits_fixed_split (k1 k2 : nat) : forall c acc,
  digits_fixed (k1 + k2) c acc
  = digits_fixed k1 (c / 10 ^ Z.of_nat k2) (digits_fixed k2 c acc).
Proof.
  induction k2 as [|k2 IH]; intros c acc.
  - rewrite Nat.add_0_r. simpl. rewrite Z.div_1_r. reflexivity.
  - rewrite Nat.add_succ_r. simpl digits_fixed. rewrite IH.
    rewrite Z.div_div by (try apply pow10_pos; lia).
    rewrite Nat2Z.inj_succ, <- Z.add_1_r, pow10_succ by lia. reflexivity.
Qed.

Lemma digits_fixed_mod (k : nat) : forall c c' acc,
  c mod 10 ^ Z.of_nat k = c' mod 10 ^ Z.of_nat k ->
  digits_fixed k c acc = digits_fixed k c' acc.
Proof.
  induction k as [|k IH]; intros c c' acc H; simpl; [reflexivity|].
  rewrite Nat2Z.inj_succ, <- Z.add_1_r, pow10_succ in H by lia.
  pose proof (pow10_pos (Z.of_nat k) ltac:(lia)) as Hp.
  rewrite !Z.rem_mul_r in H by lia.
  pose proof (mod10_range c). pose proof (mod10_range c').
  assert (c mod 10 = c' mod 10) as E1 by lia.
  assert ((c / 10) mod 10 ^ Z.of_nat k = (c' / 10) mod 10 ^ Z.of_nat k) as E2 by lia.
  rewrite E1. apply IH. exact E2.
Qed.

Lemma all_chars_app (P : ascii -> bool) (s t : string) :
  all_chars P (s ++ t) = all_chars P s && all_chars P t.
Proof.
  induction s as [|c s IH]; [reflexivity|].
  rewrite string_app_cons. simpl. rewrite IH. apply andb_assoc.
Qed.

Lemma digits_fixed_decimal (k : nat) : forall c acc,
  all_chars Py.is_decimal_digit acc = true ->
  all_chars Py.is_decimal_digit (digits_fixed k c acc) = true.
Proof.
  induction k as [|k IH]; intros c acc H; simpl; [exact H|].
  apply IH. simpl. rewrite digit_char_decimal by apply mod10_range. exact H.
Qed.

Lemma digits_value_fixed (k : nat) : forall c acc v,
  0 <= c < 10 ^ Z.of_nat k ->
  digits_value (digits_fixed k c acc) v = digits_value acc (10 ^ Z.of_nat k * v + c).
Proof.
  induction k as [|k IH]; intros c acc v H.
  - simpl in *. f_equal. lia.
  - rewrite Nat2Z.inj_succ, <- Z.add_1_r, pow10_succ in * by lia.
    simpl digits_fixed.
    pose proof (pow10_pos (Z.of_nat k) ltac:(lia)) as Hp.
    assert (0 <= c / 10 < 10 ^ Z.of_nat k) as Hq.
    { split; [apply Z.div_pos; lia|]. apply Z.div_lt_upper_bound; lia. }
    rewrite IH by exact Hq. simpl digits_value.
    rewrite digit_val_char by apply mod10_range.
    f_equal. pose proof (Z.div_mod c 10 ltac:(lia)). lia.
Qed.

Lemma str_nonneg_aux_fixed (k : nat) : forall fuel c acc,
  10 ^ Z.of_nat k <= c < 10 ^ (Z.of_nat k + 1) ->
  (k <= fuel)%nat ->
  Py.str_nonneg_aux fuel c acc = digits_fixed (S k) c acc.
Proof.
  induction k as [|k IH]; intros fuel c acc H Hf.
  - simpl in H. destruct fuel as [|fuel]; simpl; [reflexivity|].
    destruct (Z.ltb_spec c 10); [reflexivity | lia].
  - destruct fuel as [|fuel]; [lia|].
    rewrite Nat2Z.inj_succ, <- Z.add_1_r in H.
    rewrite !pow10_succ in H by lia.
    pose proof (pow10_pos (Z.of_nat k) ltac:(lia)) as Hp.
    cbn [Py.str_nonneg_aux].
    destruct (Z.ltb_spec c 10); [lia|].
    rewrite IH; [reflexivity | | lia].
    rewrite pow10_succ by lia.
    split; [apply Z.div_le_lower_bound; lia | apply Z.div_lt_upper_bound; lia].
Qed.

Lemma log2_pow10 (k : nat) (c : Z) : 10 ^ Z.of_nat k <= c -> (k <= Z.to_nat (Z.log2 c))%nat.
Proof.
  intros H.
  assert (2 ^ Z.of_nat k <= 10 ^ Z.of_nat k) by (apply Z.pow_le_mono_l; lia).
  assert (Z.of_nat k <= Z.log2 c); [|lia].
  rewrite <- (Z.log2_pow2 (Z.of_nat k)) by lia.
  apply Z.log2_le_mono. lia.
Qed.

(** [str] of a number with exactly [k] digits is its [k] low digits. *)
Lemma str_nonneg_fixed (k : Z) (c : Z) :
  1 <= k -> 10 ^ (k - 1) <= c < 10 ^ k ->
  Py.str_nonneg c = digits_fixed (Z.to_nat k) c EmptyString.
Proof.
  intros Hk H. unfold Py.str_nonneg.
  replace (Z.to_nat k) with (S (Z.to_nat (k - 1))) by lia.
  apply str_nonneg_aux_fixed.
  - rewrite Z2Nat.id by lia. replace (k - 1 + 1) with k by lia. exact H.
  - apply log2_pow10. rewrite Z2Nat.id by lia. lia.
Qed.

Lemma ndigits_fixed (k : Z) (c : Z) :
  1 <= k -> 10 ^ (k - 1) <= c < 10 ^ k -> Dec.ndigits c = k.
Proof.
  intros Hk H. unfold Dec.ndigits, Py.len.
  rewrite (str_nonneg_fixed k c Hk H), length_digits_fixed. simpl. lia.
Qed.

End DigitStrings.

(* ================================================================== *)
(** * 9. The decimal computation of the golden ratio *)
(* ================================================================== *)

Section PhiDecimal.

Lemma div_eucl_div_mod (a b : Z) : Z.div_eucl a b = (a / b, a mod b).
Proof. unfold Z.div, Z.modulo. destruct (Z.div_eucl a b). reflexivity. Qed.

Lemma round1_bounds (c : Z) : c / 10 <= round1 c <= c / 10 + 1.
Proof. unfold round1. destruct (_ || _); lia. Qed.

Lemma fix_id (prec c e : Z) :
  Dec.ndigits c <= prec -> Dec.fix_ prec (Dec.mk c e) = Dec.mk c e.
Proof.
  intros H. unfold Dec.fix_. cbn [Dec.d_int Dec.d_exp].
  destruct (Z.ltb_spec e (Dec.ndigits c + e - prec)); [lia | reflexivity].
Qed.

Lemma fix_cut1 (prec c e : Z) :
  Dec.ndigits c = prec + 1 -> Dec.ndigits (round1 c) = prec ->
  Dec.fix_ prec (Dec.mk c e) = Dec.mk (round1 c) (e + 1).
Proof.
  intros H1 H2. unfold Dec.fix_. cbn [Dec.d_int Dec.d_exp]. rewrite H1.
  destruct (Z.ltb_spec e (prec + 1 + e - prec)); [|lia].
  replace (prec + 1 + e - prec - e) with 1 by lia.
  change (10 ^ 1) with 10. fold (round1 c). rewrite H2.
  rewrite Z.ltb_irrefl. f_equal. lia.
Qed.

(** 5 times a power of 100 is not a square. *)
Lemma five_not_square (k : nat) : forall n, n * n <> 5 * 100 ^ Z.of_nat k.
Proof.
  induction k as [|k IH]; intros n H.
  - simpl in H. assert (-3 < n < 3) as Hn by nia.
    assert (n = -2 \/ n = -1 \/ n = 0 \/ n = 1 \/ n = 2) as Hc by lia.
    destruct Hc as [-> | [-> | [-> | [-> | ->]]]]; discriminate H.
  - rewrite Nat2Z.inj_succ, <- Z.add_1_r, Z.pow_add_r in H by lia.
    change (100 ^ 1) with 100 in H.
    pose proof (Z.div_mod n 10 ltac:(lia)) as Hd.
    pose proof (mod10_range n) as Hr.
    set (q := n / 10) in *. set (r := n mod 10) in *.
    assert (r = 0) as Hr0.
    { rewrite Hd in H.
      destruct (digit_cases r Hr) as [E | [E | [E | [E | [E | [E | [E | [E | [E | E]]]]]]]]];
        rewrite E in H; lia. }
    apply (IH q). rewrite Hd, Hr0 in H. lia.
Qed.

Variable p : Z.
Hypothesis Hp : 2 <= p.

Local Abbreviation T := (scale p).
Local Abbreviation n5 := (sqrt5_floor p).
Local Abbreviation n5' := (sqrt5_sticky p).
Local Abbreviation c5 := (sqrt5_coeff p).
Local Abbreviation a := (sum_coeff p).

Lemma T_pos : 1 <= T.
Proof. unfold scale. pose proof (pow10_pos (p - 2)). lia. Qed.

Lemma pow_p1 : 10 ^ (p - 1) = 10 * T.
Proof. unfold scale. replace (p - 1) with (p - 2 + 1) by lia. apply pow10_succ. lia. Qed.

Lemma pow_p : 10 ^ p = 100 * T.
Proof.
  replace p with (p - 1 + 1) at 1 by lia. rewrite pow10_succ, pow_p1 by lia. lia.
Qed.

Lemma pow_p' : 10 ^ (p + 1) = 1000 * T.
Proof. rewrite pow10_succ, pow_p by lia. lia. Qed.

Lemma pow100_p : 100 ^ p = 10000 * (T * T).
Proof. rewrite pow100, pow_p by lia. lia. Qed.

Lemma n5_spec : n5 * n5 <= 5 * 100 ^ p < (n5 + 1) * (n5 + 1).
Proof.
  unfold sqrt5_floor. pose proof (Z.sqrt_spec (5 * 100 ^ p)) as H.
  rewrite pow100_p in *. pose proof T_pos.
  replace (Z.succ (Z.sqrt (5 * (10000 * (T * T))))) with
    (Z.sqrt (5 * (10000 * (T * T))) + 1) in H by lia.
  apply H. nia.
Qed.

Lemma n5_bounds : 200 * T <= n5 < 224 * T.
Proof.
  pose proof n5_spec as H. rewrite pow100_p in H. pose proof T_pos.
  assert (0 <= n5) by apply Z.sqrt_nonneg.
  split; nia.
Qed.

Lemma n5_inexact : (n5 * n5 =? 5 * 100 ^ p) = false.
Proof.
  apply Z.eqb_neq. intros H.
  apply (five_not_square (Z.to_nat p) n5). rewrite Z2Nat.id by lia. exact H.
Qed.

Lemma n5'_bounds : 200 * T <= n5' <= 224 * T.
Proof. pose proof n5_bounds. unfold sqrt5_sticky. destruct (_ =? _); lia. Qed.

Lemma c5_bounds : 20 * T <= c5 <= 24 * T.
Proof.
  pose proof n5'_bounds. pose proof (round1_bounds n5'). pose proof T_pos.
  unfold sqrt5_coeff. dlia.
Qed.

Lemma a_bounds : 30 * T <= a <= 34 * T.
Proof. pose proof c5_bounds. unfold sum_coeff. rewrite pow_p1. lia. Qed.

Lemma ndigits_p (c : Z) : 10 * T <= c < 100 * T -> Dec.ndigits c = p.
Proof. intros H. apply ndigits_fixed; [lia|]. rewrite pow_p1, pow_p. exact H. Qed.

Lemma ndigits_p' (c : Z) : 100 * T <= c < 1000 * T -> Dec.ndigits c = p + 1.
Proof.
  intros H. apply ndigits_fixed; [lia|].
  replace (p + 1 - 1) with p by lia. rewrite pow_p, pow_p'. exact H.
Qed.

Lemma sqrt5_decimal :
  Dec.sqrt p (Dec.of_int 5) = Dec.mk c5 (1 - p).
Proof.
  unfold Dec.sqrt, Dec.of_int. cbn [Dec.d_int Dec.d_exp].
  change (Z.odd 0) with false. cbv iota.
  change (Dec.ndigits 5) with 1. change ((1 + 1) / 2) with 1.
  replace (p + 1 - 1) with p by lia.
  destruct (Z.leb_spec 0 p); [|lia].
  fold n5. rewrite n5_inexact. cbn [andb]. fold n5'.
  change (0 / 2) with 0.
  pose proof n5'_bounds. pose proof c5_bounds. pose proof T_pos.
  rewrite fix_cut1.
  - f_equal. lia.
  - apply ndigits_p'. lia.
  - apply ndigits_p. fold c5. lia.
Qed.

Lemma add_decimal :
  Dec.add p (Dec.of_int 1) (Dec.mk c5 (1 - p)) = Dec.mk a (1 - p).
Proof.
  pose proof c5_bounds. pose proof a_bounds. pose proof T_pos.
  unfold Dec.add, Dec.normalize, Dec.of_int. cbn [Dec.d_int Dec.d_exp].
  destruct (Z.ltb_spec 0 (1 - p)); [lia|]. cbn [Dec.d_int Dec.d_exp].
  change (Dec.ndigits 1) with 1.
  rewrite (ndigits_p c5) by lia.
  destruct (Z.ltb_spec (p + (1 - p) - 1) (0 + Z.min (-1) (1 - p - 2))); [lia|].
  cbn [Dec.d_int Dec.d_exp].
  replace (0 - (1 - p)) with (p - 1) by lia. rewrite Z.mul_1_l. fold a.
  apply fix_id. rewrite (ndigits_p a) by lia. lia.
Qed.

Lemma div_decimal :
  Dec.div p (Dec.mk a (1 - p)) (Dec.of_int 2) = Dec.mk (phi_coeff p) (1 - p).
Proof.
  pose proof a_bounds as Ha. pose proof T_pos.
  unfold Dec.div, Dec.of_int. cbn [Dec.d_int Dec.d_exp].
  change (Dec.ndigits 2) with 1. rewrite (ndigits_p a) by lia.
  replace (1 - p + p + 1) with 2 by lia. change (0 <=? 2) with true. cbv iota.
  rewrite div_eucl_div_mod. change (10 ^ 2) with 100.
  replace (a * 100) with (a * 50 * 2) by lia.
  rewrite Z.div_mul, Z.mod_mul by lia. change (0 =? 0) with true. cbv iota.
  replace (Z.to_nat (1 - p - 0 - (1 - p - 0 - 2))) with 2%nat by lia.
  replace (1 - p - 0 - 2) with (- p - 1) by lia.
  replace (1 - p - 0) with (1 - p) by lia.
  cbn [Dec.strip_zeros].
  destruct (Z.ltb_spec (- p - 1) (1 - p)); [|lia].
  replace (a * 50) with (5 * a * 10) by lia.
  rewrite Z.mod_mul, Z.div_mul by lia. cbn [andb]. change (0 =? 0) with true. cbv iota.
  destruct (Z.ltb_spec (- p - 1 + 1) (1 - p)); [|lia]. cbn [andb].
  unfold phi_coeff, phi_coeff_from. fold n5 n5' c5 a.
  pose proof (round1_bounds (5 * a)).
  destruct (Z.eqb_spec ((5 * a) mod 10) 0).
  - replace (- p - 1 + 1 + 1) with (1 - p) by lia.
    apply fix_id. rewrite (ndigits_p (5 * a / 10)) by dlia. lia.
  - rewrite fix_cut1.
    + f_equal. lia.
    + apply ndigits_p'. lia.
    + apply ndigits_p. dlia.
Qed.

Lemma phi_decimal_eq : phi_decimal p = Dec.mk (phi_coeff p) (1 - p).
Proof. unfold phi_decimal. rewrite sqrt5_decimal, add_decimal. apply div_decimal. Qed.

Lemma phi_coeff_bounds : 15 * T <= phi_coeff p <= 17 * T + 1.
Proof.
  pose proof a_bounds. pose proof (round1_bounds (5 * a)).
  unfold phi_coeff, phi_coeff_from. fold n5 n5' c5 a.
  destruct (Z.eqb_spec ((5 * a) mod 10) 0); dlia.
Qed.

Lemma phi_coeff_digits : 10 ^ (p - 1) <= phi_coeff p < 2 * 10 ^ (p - 1).
Proof. pose proof phi_coeff_bounds. pose proof T_pos. rewrite pow_p1. lia. Qed.

End PhiDecimal.

(* ================================================================== *)
(** * 10. The string [format_phi] and the result of [get_phi_prefix] *)
(* ================================================================== *)

Lemma length_phi_frac (p : Z) : 2 <= p -> Py.len (phi_frac p) = p - 1.
Proof. intros. unfold Py.len, phi_frac. rewrite length_digits_fixed. simpl. lia. Qed.

Lemma phi_frac_decimal (p : Z) : all_chars Py.is_decimal_digit (phi_frac p) = true.
Proof. apply digits_fixed_decimal. reflexivity. Qed.

Lemma str_phi_coeff (p : Z) :
  2 <= p -> Py.str_nonneg (phi_coeff p) = String "1" (phi_frac p).
Proof.
  intros Hp. pose proof (phi_coeff_digits p Hp) as Hq.
  pose proof (pow10_pos (p - 1) ltac:(lia)) as Hpos.
  assert (10 ^ p = 10 * 10 ^ (p - 1)) as Hp10.
  { rewrite <- pow10_succ by lia. f_equal. lia. }
  rewrite (str_nonneg_fixed p) by lia.
  replace (Z.to_nat p) with (1 + Z.to_nat (p - 1))%nat by lia.
  rewrite digits_fixed_split. rewrite Z2Nat.id by lia.
  replace (phi_coeff p / 10 ^ (p - 1)) with 1.
  - reflexivity.
  - apply Z.div_unique with (r := phi_coeff p - 10 ^ (p - 1)); lia.
Qed.

Lemma format_phi_eq (p : Z) :
  2 <= p -> format_phi p = String "1" (String "." (phi_frac p)).
Proof.
  intros Hp. unfold format_phi. rewrite (phi_decimal_eq p Hp).
  unfold Dec.format_f. cbn [Dec.d_int Dec.d_exp].
  rewrite (str_phi_coeff p Hp).
  pose proof (length_phi_frac p Hp) as Hl.
  assert (Py.len (String "1" (phi_frac p)) = p) as Hl'.
  { unfold Py.len in *. simpl String.length. lia. }
  rewrite Hl'. replace (1 - p + p) with 1 by lia.
  change (1 <? 0) with false. cbv iota.
  destruct (Z.ltb_spec p 1); [lia|].
  unfold Py.slice_to, Py.slice_from. change (0 <=? 1) with true. cbv iota.
  change (Z.to_nat 1) with 1%nat. cbn [Py.take Py.drop].
  destruct (phi_frac p) as [|c s] eqn:E.
  - unfold Py.len in Hl. simpl in Hl. lia.
  - reflexivity.
Qed.

Lemma len_format_phi (p : Z) : 2 <= p -> Py.len (format_phi p) = p + 1.
Proof.
  intros Hp. rewrite (format_phi_eq p Hp).
  pose proof (length_phi_frac p Hp). unfold Py.len in *. simpl String.length. lia.
Qed.

Lemma valid_prec_true (prec : Z) : 1 <= prec <= MAX_PREC -> valid_prec prec = true.
Proof.
  intros H. unfold valid_prec.
  destruct (Z.leb_spec 1 prec); [|lia].
  destruct (Z.leb_spec prec MAX_PREC); [reflexivity|lia].
Qed.


(** Within the precisions of the context, the loop of [get_phi_prefix]
    ends at its first test. *)
Lemma get_phi_prefix_eq (fuel : nat) (N : Z) :
  0 <= N -> N + 50 <= MAX_PREC ->
  get_phi_prefix fuel N = Returned (Py.slice_to (format_phi (N + 50)) N).
Proof.
  intros HN HM. unfold get_phi_prefix. rewrite valid_prec_true by lia.
  pose proof (len_format_phi (N + 50) ltac:(lia)) as Hl.
  destruct fuel; cbn [get_phi_prefix_loop]; rewrite Hl;
    (destruct (Z.ltb_spec (N + 50 + 1) N); [lia | reflexivity]).
Qed.

Lemma take_app_length (s t : string) : Py.take (String.length s) (s ++ t) = s.
Proof.
  induction s as [|c s IH]; [destruct t; reflexivity|].
  rewrite string_app_cons. simpl. rewrite IH. reflexivity.
Qed.

Lemma drop_app_length (s t : string) : Py.drop (String.length s) (s ++ t) = t.
Proof.
  induction s as [|c s IH]; [destruct t; reflexivity|].
  rewrite string_app_cons. simpl. exact IH.
Qed.

Lemma length_take (n : nat) : forall s,
  (n <= String.length s)%nat -> String.length (Py.take n s) = n.
Proof.
  induction n as [|n IH]; intros [|c s] H; simpl in *; try lia.
  rewrite IH by lia. reflexivity.
Qed.

Lemma all_chars_take (P : ascii -> bool) (n : nat) : forall s,
  all_chars P s = true -> all_chars P (Py.take n s) = true.
Proof.
  induction n as [|n IH]; intros [|c s] H; simpl in *; try reflexivity.
  apply andb_true_iff in H as [H1 H2]. rewrite H1. simpl. apply IH, H2.
Qed.

(** The first [j] digits of a [j + m]-digit string of [c]. *)
Lemma take_digits_fixed (j m : nat) (c : Z) :
  Py.take j (digits_fixed (j + m) c EmptyString)
  = digits_fixed j (c / 10 ^ Z.of_nat m) EmptyString.
Proof.
  rewrite digits_fixed_split, digits_fixed_acc.
  rewrite <- (take_app_length (digits_fixed j _ EmptyString)
                (digits_fixed m c EmptyString)) at 2.
  rewrite length_digits_fixed. simpl. rewrite Nat.add_0_r. reflexivity.
Qed.

(** The result for [N >= 2]: "1." and the first [N - 2] fractional
    digits of [format_phi (N + 50)]. *)
Lemma get_phi_prefix_shape (fuel : nat) (N : Z) :
  2 <= N -> N + 50 <= MAX_PREC ->
  get_phi_prefix fuel N
  = Returned (String "1" (String "." (Py.take (Z.to_nat (N - 2)) (phi_frac (N + 50))))).
Proof.
  intros HN HM. rewrite get_phi_prefix_eq by lia. f_equal.
  rewrite format_phi_eq by lia. unfold Py.slice_to.
  destruct (Z.leb_spec 0 N); [|lia].
  replace (Z.to_nat N) with (S (S (Z.to_nat (N - 2)))) by lia.
  reflexivity.
Qed.

Lemma sqrt_scale (x b : Z) : 0 <= x -> 0 < b -> Z.sqrt (x * (b * b)) / b = Z.sqrt x.
Proof.
  intros Hx Hb.
  pose proof (Z.sqrt_spec x Hx) as Hs. pose proof (Z.sqrt_nonneg x) as Hs0.
  remember (Z.sqrt x) as s eqn:Es. clear Es.
  assert (0 <= x * (b * b)) as Hxb by nia.
  pose proof (Z.sqrt_spec _ Hxb) as HR. pose proof (Z.sqrt_nonneg (x * (b * b))) as HR0.
  set (R := Z.sqrt (x * (b * b))) in *.
  assert (0 < b * b) as Hbb by nia.
  assert (s * b <= R).
  { apply Z.sqrt_le_square; [exact Hxb | nia |].
    replace (s * b * (s * b)) with (s * s * (b * b)) by ring.
    apply Z.mul_le_mono_nonneg_r; [lia | apply Hs]. }
  assert (R < (s + 1) * b).
  { apply Z.sqrt_lt_square; [exact Hxb | nia |].
    replace ((s + 1) * b * ((s + 1) * b)) with (Z.succ s * Z.succ s * (b * b)) by ring.
    apply Z.mul_lt_mono_pos_r; [lia | apply Hs]. }
  symmetry. apply Z.div_unique with (r := R - s * b); lia.
Qed.

(** [phi_coeff p], cut to [k] fractional digits, is the golden ratio cut
    to [k] digits, or one unit in the last place above it. *)
Lemma phi_coeff_accurate (p k : Z) :
  2 <= p -> 0 <= k <= p - 1 ->
  phi_floor k <= phi_coeff p / 10 ^ (p - 1 - k) <= phi_floor k + 1.
Proof.
  intros Hp Hk.
  set (m := p - 1 - k). set (B := 10 ^ m).
  assert (0 < B) as HB by (apply pow10_pos; lia).
  pose proof (pow10_pos k ltac:(lia)) as Hk10.
  pose proof (pow10_pos (p - 1) ltac:(lia)) as Hp10.
  set (r5 := Z.sqrt (5 * 100 ^ (p - 1))).
  set (n5 := Z.sqrt (5 * 100 ^ p)).
  assert (n5 / 10 = r5) as Hn5.
  { unfold n5, r5. replace p with (p - 1 + 1) at 1 by lia.
    rewrite Z.pow_add_r by lia. change (100 ^ 1) with (10 * 10).
    rewrite Z.mul_assoc. apply sqrt_scale; [|lia].
    pose proof (Z.pow_pos_nonneg 100 (p - 1)); lia. }
  assert (r5 / B = Z.sqrt (5 * 100 ^ k)) as Hr5.
  { unfold r5, B. replace (p - 1) with (k + m) by (unfold m; lia).
    rewrite Z.pow_add_r by (unfold m; lia). rewrite (pow100 m) by (unfold m; lia).
    rewrite Z.mul_assoc. apply sqrt_scale; [|exact HB].
    pose proof (Z.pow_pos_nonneg 100 k); lia. }
  assert (10 ^ (p - 1) = 10 ^ k * B) as HpB.
  { unfold B. rewrite <- Z.pow_add_r by (unfold m; lia). f_equal. unfold m. lia. }
  set (Y := 10 ^ (p - 1) + r5).
  assert (phi_floor k = Y / (2 * B)) as HT.
  { unfold phi_floor. rewrite <- Hr5. unfold Y. rewrite HpB.
    rewrite <- Z.div_add_l by lia. rewrite Z.div_div by lia.
    f_equal. lia. }
  (* the coefficient against Y *)
  assert (Y - 1 <= 2 * phi_coeff p <= Y + 2) as Hq.
  { unfold phi_coeff, phi_coeff_from. fold n5.
    set (n5' := if n5 mod 5 =? 0 then n5 + 1 else n5).
    assert (n5' / 10 = r5) as Hn5'.
    { rewrite <- Hn5. unfold n5'. destruct (Z.eqb_spec (n5 mod 5) 0); [dlia | reflexivity]. }
    pose proof (round1_bounds n5') as Hc5. rewrite Hn5' in Hc5.
    set (c5 := round1 n5') in *.
    set (a := 10 ^ (p - 1) + c5).
    pose proof (round1_bounds (5 * a)) as Hr.
    assert (a - 1 <= 2 * (if (5 * a) mod 10 =? 0 then 5 * a / 10 else round1 (5 * a)) <= a + 1).
    { destruct (Z.eqb_spec ((5 * a) mod 10) 0); dlia. }
    unfold Y, a in *. lia. }
  rewrite HT. fold m. fold B.
  set (q := phi_coeff p) in *.
  assert (0 <= Y) by (unfold Y; pose proof (Z.sqrt_nonneg (5 * 100 ^ (p - 1))); fold r5 in H; lia).
  pose proof (Z.div_mod Y (2 * B) ltac:(lia)) as HY.
  pose proof (Z.mod_pos_bound Y (2 * B) ltac:(lia)) as HYr.
  pose proof (Z.div_mod q B ltac:(lia)) as HQ.
  pose proof (Z.mod_pos_bound q B ltac:(lia)) as HQr.
  set (t := Y / (2 * B)) in *. set (v := q / B) in *.
  split.
  - destruct (Z.le_gt_cases t v) as [|Hlt]; [assumption|exfalso].
    assert (B * v <= B * (t - 1)) by (apply Z.mul_le_mono_nonneg_l; lia).
    lia.
  - destruct (Z.le_gt_cases v (t + 1)) as [|Hlt]; [assumption|exfalso].
    assert (B * (t + 2) <= B * v) by (apply Z.mul_le_mono_nonneg_l; lia).
    lia.
Qed.

Lemma slice_to_length (s : string) (N : Z) :
  0 <= N <= Py.len s -> Py.len (Py.slice_to s N) = N.
Proof.
  intros H. unfold Py.slice_to, Py.len in *.
  destruct (Z.leb_spec 0 N); [|lia]. rewrite length_take by lia. lia.
Qed.



(* ================================================================== *)
(** * 11. Evaluation on machine integers is sound *)
(* ================================================================== *)

Section FastEvaluation.

Lemma big_round1_spec (c : bigN) : BigN.to_Z (big_round1 c) = round1 (BigN.to_Z c).
Proof.
  unfold big_round1, round1.
  rewrite BigN.spec_ltb, BigN.spec_eqb, BigN.spec_odd, BigN.spec_mul,
    BigN.spec_modulo, BigN.spec_div.
  change (BigN.to_Z 10) with 10. change (BigN.to_Z 2) with 2.
  destruct (_ || _); [rewrite BigN.spec_add|]; rewrite BigN.spec_div; reflexivity.
Qed.

Lemma big_phi_coeff_spec (p : Z) : 1 <= p -> BigN.to_Z (big_phi_coeff p) = phi_coeff p.
Proof.
  intros Hp. unfold big_phi_coeff, phi_coeff, phi_coeff_from.
  set (n := BigN.sqrt _).
  assert (BigN.to_Z n = Z.sqrt (5 * 100 ^ p)) as Hn.
  { unfold n. rewrite BigN.spec_sqrt, BigN.spec_mul, BigN.spec_pow_N.
    rewrite Z2N.id by lia. reflexivity. }
  rewrite <- Hn.
  set (n' := if BigN.eqb (BigN.modulo n 5) 0 then BigN.add n 1 else n).
  assert (BigN.to_Z n' = if BigN.to_Z n mod 5 =? 0 then BigN.to_Z n + 1 else BigN.to_Z n)
    as Hn'.
  { unfold n'. rewrite BigN.spec_eqb, BigN.spec_modulo.
    change (BigN.to_Z 5) with 5. change (BigN.to_Z 0) with 0.
    destruct (BigN.to_Z n mod 5 =? 0); [rewrite BigN.spec_add|]; reflexivity. }
  rewrite <- Hn'.
  set (a5 := BigN.mul 5 (BigN.add _ (big_round1 n'))).
  assert (BigN.to_Z a5 = 5 * (10 ^ (p - 1) + round1 (BigN.to_Z n'))) as Ha5.
  { unfold a5. rewrite BigN.spec_mul, BigN.spec_add, BigN.spec_pow_N, big_round1_spec.
    rewrite Z2N.id by lia. reflexivity. }
  rewrite <- Ha5.
  rewrite BigN.spec_eqb, BigN.spec_modulo.
  change (BigN.to_Z 10) with 10. change (BigN.to_Z 0) with 0.
  destruct (BigN.to_Z a5 mod 10 =? 0); [rewrite BigN.spec_div | rewrite big_round1_spec];
    reflexivity.
Qed.

Lemma block_spec : BigN.to_Z block = 10 ^ 18.
Proof. unfold block. rewrite BigN.spec_pow_N. reflexivity. Qed.

Lemma length_to_blocks (k : nat) : forall b acc,
  length (to_blocks k b acc) = (k + length acc)%nat.
Proof.
  induction k as [|k IH]; intros b acc; simpl; [reflexivity|].
  destruct (BigN.div_eucl b block). rewrite IH. simpl. lia.
Qed.

(** The digits of the number a list of blocks denotes. *)
Lemma blocks_digits (l : list bigN) : forall acc tail,
  forallb (fun c => BigN.ltb c block) l = true ->
  digits_fixed (18 * length l) (BigN.to_Z (blocks_value l acc)) tail
  = (blocks_string l ++ tail)%string
  /\ BigN.to_Z (blocks_value l acc) / 10 ^ Z.of_nat (18 * length l) = BigN.to_Z acc.
Proof.
  induction l as [|c l IH]; intros acc tail Hall.
  - simpl. split; [reflexivity | apply Z.div_1_r].
  - cbn [forallb] in Hall. apply andb_true_iff in Hall as [Hc Hall].
    rewrite BigN.spec_ltb, block_spec in Hc. apply Z.ltb_lt in Hc.
    pose proof (BigN.spec_pos c) as Hc0.
    cbn [blocks_value blocks_string length].
    destruct (IH (BigN.add (BigN.mul acc block) c) tail Hall) as [IH1 IH2].
    rewrite BigN.spec_add, BigN.spec_mul, block_spec in IH2.
    set (V := BigN.to_Z (blocks_value l (BigN.add (BigN.mul acc block) c))) in *.
    replace (18 * S (length l))%nat with (18 + 18 * length l)%nat by lia.
    split.
    + rewrite digits_fixed_split, IH1, IH2.
      rewrite (digits_fixed_mod 18 _ (BigN.to_Z c)).
      * rewrite digits_fixed_acc, (digits_fixed_acc 18 _ (blocks_string l)).
        symmetry. apply string_app_assoc.
      * change (Z.of_nat 18) with 18.
        rewrite Z.add_comm, Z.mod_add by lia. reflexivity.
    + rewrite Nat2Z.inj_add, Z.pow_add_r by lia.
      rewrite Z.mul_comm, <- Z.div_div by (try apply pow10_pos; lia).
      rewrite IH2. change (Z.of_nat 18) with 18.
      rewrite Z.div_add_l by lia. rewrite (Z.div_small (BigN.to_Z c)) by lia. lia.
Qed.

Lemma fast_format_phi_sound (p : Z) (s : string) :
  2 <= p -> fast_format_phi p = Some s -> format_phi p = s.
Proof.
  intros Hp. unfold fast_format_phi.
  set (k := Z.to_nat (p / 18 + 1)).
  set (l := to_blocks k (big_phi_coeff p) []).
  destruct (BigN.eqb _ _ && _) eqn:Hchk; [|discriminate].
  apply andb_true_iff in Hchk as [Hv Hall].
  rewrite BigN.spec_eqb, big_phi_coeff_spec in Hv by lia. apply Z.eqb_eq in Hv.
  destruct (blocks_digits l 0%bigN EmptyString Hall) as [Hd _].
  rewrite Hv, string_app_nil_r in Hd.
  assert (length l = k) as Hl by (unfold l; rewrite length_to_blocks; simpl; lia).
  rewrite Hl in Hd.
  assert (18 * k = (18 * k - Z.to_nat p) + Z.to_nat p)%nat as Hk.
  { unfold k. assert (p < 18 * (p / 18 + 1)) by dlia. lia. }
  rewrite Hk in Hd at 1. rewrite digits_fixed_split, digits_fixed_acc in Hd.
  assert (10 ^ p = 10 * 10 ^ (p - 1)) as Hp10.
  { rewrite <- pow10_succ by lia. f_equal. lia. }
  pose proof (phi_coeff_digits p Hp) as Hq.
  pose proof (pow10_pos (p - 1) ltac:(lia)) as Hpos.
  rewrite <- (str_nonneg_fixed p) in Hd by lia.
  rewrite str_phi_coeff in Hd by exact Hp.
  rewrite <- Hd.
  set (z := digits_fixed (18 * k - Z.to_nat p) _ EmptyString).
  replace (18 * k - Z.to_nat p)%nat with (String.length z)
    by (unfold z; rewrite length_digits_fixed; simpl; lia).
  rewrite drop_app_length. intros [= <-].
  apply format_phi_eq. exact Hp.
Qed.

(** A test on [format_phi p] may be run on [fast_format_phi p]. *)
Lemma check_via_fast (p : Z) (P : string -> bool) :
  2 <= p ->
  match fast_format_phi p with Some s => P s | None => false end = true ->
  P (format_phi p) = true.
Proof.
  intros Hp H. destruct (fast_format_phi p) as [s|] eqn:E; [|discriminate].
  rewrite (fast_format_phi_sound p s Hp E). exact H.
Qed.

End FastEvaluation.

Lemma pos_eqb_eq (a b : option Z) : pos_eqb a b = true <-> a = b.
Proof.
  destruct a as [x|], b as [y|]; simpl; try (split; [discriminate | congruence]).
  - rewrite Z.eqb_eq. split; congruence.
  - split; reflexivity.
Qed.

Lemma dict_eqb_eq (d1 : dict) : forall d2, dict_eqb d1 d2 = true -> d1 = d2.
Proof.
  induction d1 as [|[k1 [s1 p1]] d1 IH]; intros [|[k2 [s2 p2]] d2] H; simpl in H;
    try discriminate; [reflexivity|].
  repeat (apply andb_true_iff in H as [H ?]).
  apply Z.eqb_eq in H. apply String.eqb_eq in H2. apply pos_eqb_eq in H1.
  subst. f_equal. apply IH. assumption.
Qed.

(** The digits computed at precision 20050, evaluated once: the scan of
    the first 20000 characters gives the reference table, no six equal
    digits stand in a row anywhere, and the last digit is not 0. *)
Lemma reference_digits :
  dict_eqb (find_first_runs (Py.slice_to (format_phi 20050) 20000) 9) GROUND_TRUTH
    && no_run_of_six (format_phi 20050)
    && last_not_zero (format_phi 20050)
  = true.
Proof.
  apply (check_via_fast 20050
           (fun s => dict_eqb (find_first_runs (Py.slice_to s 20000) 9) GROUND_TRUTH
                       && no_run_of_six s && last_not_zero s)).
  - discriminate.
  - vm_compute. reflexivity.
Qed.

(** The scan of the 20000 characters the check is made on. *)
Lemma reference_scan :
  find_first_runs (Py.slice_to (format_phi (20000 + 50)) 20000) 9 = GROUND_TRUTH.
Proof.
  change (20000 + 50) with 20050.
  pose proof reference_digits as H.
  apply andb_true_iff in H as [H _]. apply andb_true_iff in H as [H _].
  apply dict_eqb_eq. exact H.
Qed.

(** C4 (reference scenario).  [get_phi_prefix 20000] returns a string of
    exactly 20000 characters, and [find_first_runs] over it for
    n = 2..9 gives "33" at 7, "222" at 131, "4444" at 1218, "99999" at
    6401 and nothing ("N/A", no position) for 6, 7, 8 and 9: the table
    [GROUND_TRUTH]. *)
Theorem C4_reference_scenario (fuel : nat) :
  exists prefix,
    get_phi_prefix fuel 20000 = Returned prefix
    /\ Py.len prefix = 20000
    /\ find_first_runs prefix 9
       = [ (2, ("33", Some 7)); (3, ("222", Some 131)); (4, ("4444", Some 1218));
           (5, ("99999", Some 6401)); (6, ("N/A", None)); (7, ("N/A", None));
           (8, ("N/A", None)); (9, ("N/A", None)) ]
    /\ find_first_runs prefix 9 = GROUND_TRUTH.
Proof.
  eexists. split; [apply get_phi_prefix_eq; discriminate|].
  split; [apply slice_to_length; rewrite len_format_phi; lia|].
  split; exact reference_scan.
Qed.

(* ================================================================== *)
(** * 12. The run scanner *)
(* ================================================================== *)

Section Scanner.

Local Open Scope list_scope.

Lemma lead_nonneg (c : ascii) (h : list ascii) : 0 <= lead c h.
Proof. induction h as [|c' h IH]; simpl; [lia|]. destruct (Ascii.eqb c c'); lia. Qed.

Lemma lead_replicate (c : ascii) (k : nat) (h : list ascii) :
  Z.of_nat k <= lead c (replicate k c ++ h).
Proof.
  induction k as [|k IH]; simpl; [apply lead_nonneg|].
  rewrite Ascii.eqb_refl. lia.
Qed.

(** A history starts with [lead c h] copies of [c], and no more. *)
Lemma lead_split (c : ascii) (h : list ascii) :
  exists h', h = replicate (Z.to_nat (lead c h)) c ++ h' /\ head h' <> Some c.
Proof.
  induction h as [|c' h IH]; simpl.
  - exists []. split; [reflexivity | discriminate].
  - destruct (Ascii.eqb_spec c c') as [<-|Hne].
    + destruct IH as (h' & Hh & Hhd). exists h'. split; [|exact Hhd].
      pose proof (lead_nonneg c h).
      replace (Z.to_nat (1 + lead c h)) with (S (Z.to_nat (lead c h))) by lia.
      simpl. f_equal. exact Hh.
    + exists (c' :: h). split; [reflexivity|]. simpl. congruence.
Qed.

Lemma isdigit_neq (c d : ascii) :
  Py.isdigit c = true -> Py.isdigit d = false -> Ascii.eqb c d = false.
Proof. intros Hc Hd. destruct (Ascii.eqb_spec c d); [congruence | reflexivity]. Qed.

(** The run length the loops compute for a digit is one more than the
    copies of it that end the history. *)
Lemma run_len_lead (ch : ascii) (h : list ascii) :
  Py.isdigit ch = true ->
  (if char_is ch (fst (trail h)) then snd (trail h) + 1 else 1) = 1 + lead ch h.
Proof.
  intros Hd. destruct h as [|c h]; [reflexivity|]. simpl.
  destruct (Py.isdigit c) eqn:Hc; simpl.
  - destruct (Ascii.eqb_spec ch c) as [->|Hne]; lia.
  - rewrite (isdigit_neq ch c Hd Hc). reflexivity.
Qed.

Lemma trail_digit (ch : ascii) (h : list ascii) :
  Py.isdigit ch = true -> trail (ch :: h) = (Some ch, 1 + lead ch h).
Proof. intros Hd. simpl. rewrite Hd. reflexivity. Qed.

Lemma trail_other (ch : ascii) (h : list ascii) :
  Py.isdigit ch = false -> trail (ch :: h) = (None, 0).
Proof. intros Hd. simpl. rewrite Hd. reflexivity. Qed.

Lemma no_run_nil (n : Z) : 1 <= n -> no_run n [].
Proof.
  intros Hn h1 h2 c H _. symmetry in H. apply app_eq_nil in H as [_ ->]. simpl. lia.
Qed.

Lemma no_run_cons (n : Z) (ch : ascii) (h : list ascii) :
  no_run n h -> (forall c, Py.isdigit c = true -> lead c (ch :: h) < n) ->
  no_run n (ch :: h).
Proof.
  intros Hh Hch h1 h2 c H Hc. destruct h1 as [|x h1]; simpl in H.
  - subst h2. apply Hch, Hc.
  - injection H as _ H. apply (Hh h1 h2 c H Hc).
Qed.

(** A history without a run of length [n] holds no [n] equal digits in
    a row. *)
Lemma no_run_no_window (n : Z) (h A B : list ascii) (c : ascii) :
  no_run n h -> Py.isdigit c = true ->
  reverse h = A ++ replicate (Z.to_nat n) c ++ B -> False.
Proof.
  intros Hh Hc H. apply (f_equal reverse) in H.
  rewrite reverse_involutive, !reverse_app, reverse_replicate in H.
  rewrite <- app_assoc in H.
  pose proof (Hh _ _ c H Hc) as Hlt.
  pose proof (lead_replicate c (Z.to_nat n) (reverse A)). lia.
Qed.

Lemma app_prefix (X Y P Q : list ascii) :
  X ++ Y = P ++ Q -> (length P <= length X)%nat -> exists Q', X = P ++ Q'.
Proof.
  revert X. induction P as [|x P IH]; intros X H Hl.
  - exists X. reflexivity.
  - destruct X as [|y X]; simpl in *; [lia|].
    injection H as -> H. destruct (IH X H ltac:(lia)) as [Q' ->].
    exists Q'. reflexivity.
Qed.

(** What the inner loop of [find_first_runs] returns, from a history
    without a run of length [n]: the first [n] equal digits in a row of
    the whole input, or nothing when there are none. *)
Lemma first_run_from_correct (n : Z) (l : list ascii) : forall h,
  1 <= n -> no_run n h ->
  match first_run_from n (Z.of_nat (length h)) (fst (trail h)) (snd (trail h)) l with
  | (seq, Some pos) =>
      exists c A B,
        Py.isdigit c = true
        /\ seq = Py.str_mul c n
        /\ reverse h ++ l = A ++ replicate (Z.to_nat n) c ++ B
        /\ pos = Z.of_nat (length A) + 1
        /\ (forall A0, A <> A0 ++ [c])
        /\ (forall c' A' B', Py.isdigit c' = true ->
              reverse h ++ l = A' ++ replicate (Z.to_nat n) c' ++ B' ->
              (length A <= length A')%nat)
  | (seq, None) =>
      seq = "N/A"
      /\ (forall c' A' B', Py.isdigit c' = true ->
            reverse h ++ l <> A' ++ replicate (Z.to_nat n) c' ++ B')
  end.
Proof.
  induction l as [|ch l IH]; intros h Hn Hh.
  - cbn [first_run_from]. split; [reflexivity|].
    intros c' A' B' Hc' H. rewrite app_nil_r in H.
    exact (no_run_no_window n h A' B' c' Hh Hc' H).
  - cbn [first_run_from]. destruct (Py.isdigit ch) eqn:Hd; cbn [negb].
    + rewrite (run_len_lead ch h Hd).
      assert (lead ch h < n) as Hlt by (apply (Hh [] h ch); [reflexivity | exact Hd]).
      destruct (Z.eqb_spec (1 + lead ch h) n) as [Heq|Hne].
      * destruct (lead_split ch h) as (h' & Hsplit & Hhd).
        exists ch, (reverse h'), l.
        assert (Z.to_nat n = S (Z.to_nat (lead ch h))) as Hk by lia.
        assert (reverse h ++ ch :: l
                = reverse h' ++ replicate (Z.to_nat n) ch ++ l) as HW.
        { rewrite Hsplit at 1. rewrite reverse_app, reverse_replicate, Hk.
          rewrite replicate_S_end, <- !app_assoc. reflexivity. }
        assert (length h = (length h' + Z.to_nat (lead ch h))%nat) as Hlen.
        { rewrite Hsplit at 1. rewrite length_app, length_replicate. lia. }
        repeat split.
        -- exact Hd.
        -- exact HW.
        -- rewrite length_reverse. lia.
        -- intros A0 HA. apply (f_equal reverse) in HA.
           rewrite reverse_involutive, reverse_app in HA. simpl in HA.
           rewrite HA in Hhd. apply Hhd. reflexivity.
        -- intros c' A' B' Hc' H.
           destruct (Nat.le_gt_cases (length (reverse h')) (length A')) as [|Hgt];
             [assumption|exfalso].
           rewrite length_reverse in Hgt.
           rewrite app_assoc in H.
           destruct (app_prefix (reverse h) (ch :: l) (A' ++ replicate (Z.to_nat n) c') B' H)
             as [Q' HQ].
           { rewrite length_app, length_replicate, length_reverse. lia. }
           rewrite <- app_assoc in HQ.
           exact (no_run_no_window n h A' Q' c' Hh Hc' HQ).
      * assert (no_run n (ch :: h)) as Hh'.
        { apply no_run_cons; [exact Hh|]. intros c Hc. simpl.
          destruct (Ascii.eqb_spec c ch) as [->|_]; lia. }
        specialize (IH (ch :: h) Hn Hh').
        rewrite (trail_digit ch h Hd) in IH. cbn [fst snd] in IH.
        replace (Z.of_nat (length (ch :: h))) with (Z.of_nat (length h) + 1) in IH
          by (simpl; lia).
        rewrite reverse_cons, <- app_assoc in IH. exact IH.
    + assert (no_run n (ch :: h)) as Hh'.
      { apply no_run_cons; [exact Hh|]. intros c Hc. simpl.
        rewrite (isdigit_neq c ch Hc Hd). lia. }
      specialize (IH (ch :: h) Hn Hh').
      rewrite (trail_other ch h Hd) in IH. cbn [fst snd] in IH.
      replace (Z.of_nat (length (ch :: h))) with (Z.of_nat (length h) + 1) in IH
        by (simpl; lia).
      rewrite reverse_cons, <- app_assoc in IH. exact IH.
Qed.

End Scanner.

Section ScannerClaims.

Local Open Scope list_scope.

Lemma dict_get_map (f : Z -> entry) (a n : Z) (m : nat) : forall start,
  dict_get n (map (fun k => (k, f k)) (map (fun k => a + Z.of_nat k) (seq start m)))
  = if (a + Z.of_nat start <=? n) && (n <? a + Z.of_nat start + Z.of_nat m)
    then Some (f n) else None.
Proof.
  induction m as [|m IH]; intros start.
  - cbn [seq map dict_get]. destruct (Z.ltb_spec n (a + Z.of_nat start + Z.of_nat 0)).
    + destruct (Z.leb_spec (a + Z.of_nat start) n); [lia | reflexivity].
    + rewrite andb_false_r. reflexivity.
  - cbn [seq map dict_get]. rewrite IH.
    destruct (Z.eqb_spec (a + Z.of_nat start) n) as [Heq|Hne].
    + destruct (Z.leb_spec (a + Z.of_nat start) n); [|lia].
      destruct (Z.ltb_spec n (a + Z.of_nat start + Z.of_nat (S m))); [|lia].
      rewrite Heq. reflexivity.
    + destruct (Z.leb_spec (a + Z.of_nat (S start)) n),
        (Z.ltb_spec n (a + Z.of_nat (S start) + Z.of_nat m)),
        (Z.leb_spec (a + Z.of_nat start) n),
        (Z.ltb_spec n (a + Z.of_nat start + Z.of_nat (S m)));
        cbn [andb]; try reflexivity; lia.
Qed.

(** The entry of [find_first_runs] under a key in range is the result
    of the inner loop for it. *)
Lemma dict_get_find_first_runs (s : string) (max_n n : Z) :
  2 <= n <= max_n -> dict_get n (find_first_runs s max_n) = Some (first_run s n).
Proof.
  intros H. unfold find_first_runs, py_range. rewrite dict_get_map.
  destruct (Z.leb_spec (2 + Z.of_nat 0) n),
    (Z.ltb_spec n (2 + Z.of_nat 0 + Z.of_nat (Z.to_nat (max_n + 1 - 2))));
    cbn [andb]; try reflexivity; lia.
Qed.

(** C2, as amended.  For every input and every n in 2..9, an entry of
    [find_first_runs] with a position names the first place where [n]
    equal digits stand in a row: the recorded sequence is that digit [n]
    times, it stands at the recorded 1-based position, the character
    before it is a different one, and nowhere before do [n] equal digits
    stand in a row.  An entry without a position is "N/A", and then
    the input has no [n] equal digits in a row.  (The digit after the
    recorded ones is not constrained.) *)
Theorem C2_first_run_semantics (s : string) (n : Z) :
  2 <= n <= 9 ->
  match dict_get n (find_first_runs s 9) with
  | Some (seq, Some pos) =>
      exists c A B,
        Py.isdigit c = true
        /\ seq = Py.str_mul c n
        /\ Py.chars s = A ++ replicate (Z.to_nat n) c ++ B
        /\ pos = Z.of_nat (length A) + 1
        /\ (forall A0, A <> A0 ++ [c])
        /\ (forall c' A' B', Py.isdigit c' = true ->
              Py.chars s = A' ++ replicate (Z.to_nat n) c' ++ B' ->
              (length A <= length A')%nat)
  | Some (seq, None) =>
      seq = "N/A"
      /\ (forall c' A' B', Py.isdigit c' = true ->
            Py.chars s <> A' ++ replicate (Z.to_nat n) c' ++ B')
  | None => False
  end.
Proof.
  intros Hn. rewrite dict_get_find_first_runs by exact Hn.
  unfold first_run.
  exact (first_run_from_correct n (Py.chars s) [] ltac:(lia) (no_run_nil n ltac:(lia))).
Qed.

Lemma C2_first_run_semantics_witness :
  2 <= 2 <= 9 /\
  match dict_get 2 (find_first_runs "1.000" 9) with
  | Some (seq, Some pos) =>
      exists c A B,
        Py.isdigit c = true
        /\ seq = Py.str_mul c 2
        /\ Py.chars "1.000" = A ++ replicate (Z.to_nat 2) c ++ B
        /\ pos = Z.of_nat (length A) + 1
        /\ (forall A0, A <> A0 ++ [c])
        /\ (forall c' A' B', Py.isdigit c' = true ->
              Py.chars "1.000" = A' ++ replicate (Z.to_nat 2) c' ++ B' ->
              (length A <= length A')%nat)
  | Some (seq, None) =>
      seq = "N/A"
      /\ (forall c' A' B', Py.isdigit c' = true ->
            Py.chars "1.000" <> A' ++ replicate (Z.to_nat 2) c' ++ B')
  | None => False
  end.
Proof.
  split; [lia|]. apply (C2_first_run_semantics "1.000" 2). lia.
Defined.

(** Against C2 as stated: over "1.000" the entry for n = 2 is "00" at
    position 3, and the character after these two is a third "0": the
    recorded characters are the beginning of a run of three, and the
    input has no run of exactly two. *)
Lemma C2_counterexample :
  dict_get 2 (find_first_runs "1.000" 9) = Some ("00", Some 3)
  /\ Py.chars "1.000" = ["1"; "."]%char ++ replicate 2 "0"%char ++ ["0"%char].
Proof. split; reflexivity. Qed.

(** C3, as amended.  Over "1.0112223333" with lengths 2..4,
    [find_first_runs] gives, in this order, "11" at position 4, "222" at
    position 6 and "3333" at position 9; the loop of [curses_main] shows
    the same three rows. *)
Theorem C3_scanner_unit_scenario :
  find_first_runs "1.0112223333" 4
  = [ (2, ("11", Some 4)); (3, ("222", Some 6)); (4, ("3333", Some 9)) ]
  /\ (let st := batch_phase initial_screen (Py.chars "1.0112223333") in
      shown st 2 = Some ("11", Some 4)
      /\ shown st 3 = Some ("222", Some 6)
      /\ shown st 4 = Some ("3333", Some 9)).
Proof. vm_compute. repeat split; reflexivity. Qed.

(** Against C3 as stated: the result is not "11" at 3, "222" at 5,
    "3333" at 9. *)
Lemma C3_counterexample :
  find_first_runs "1.0112223333" 4
  <> [ (2, ("11", Some 3)); (3, ("222", Some 5)); (4, ("3333", Some 9)) ].
Proof. vm_compute. intros H. discriminate H. Qed.

Lemma advance_run_eq (rc : option ascii) (rl : Z) (ch : ascii) :
  advance_run rc rl ch = (Some ch, if char_is ch rc then rl + 1 else 1).
Proof.
  destruct rc as [c|]; simpl; [|reflexivity].
  destruct (Ascii.eqb_spec ch c) as [->|]; reflexivity.
Qed.

Lemma chars_app (s t : string) : Py.chars (s ++ t) = (Py.chars s ++ Py.chars t)%list.
Proof.
  induction s as [|c s IH]; [reflexivity|].
  rewrite string_app_cons. unfold Py.chars in *. simpl. rewrite IH. reflexivity.
Qed.

Lemma chars_str_mul (d : ascii) (n : Z) :
  Py.chars (Py.str_mul d n) = replicate (Z.to_nat n) d.
Proof.
  unfold Py.str_mul. induction (Z.to_nat n) as [|m IH]; [reflexivity|].
  unfold Py.chars in *. simpl. rewrite IH. reflexivity.
Qed.

Lemma length_chars (s : string) : length (Py.chars s) = String.length s.
Proof. induction s as [|c s IH]; [reflexivity|]. unfold Py.chars in *. simpl. lia. Qed.

(** A run of [k] digits [d] that [m] more copies of [d] bring to [n]
    is found at the last of them. *)
Lemma first_run_from_copies (n : Z) (d : ascii) (l : list ascii) :
  Py.isdigit d = true ->
  forall (m : nat) (i k : Z),
    (1 <= m)%nat -> 1 <= k -> k + Z.of_nat m = n ->
    first_run_from n i (Some d) k (replicate m d ++ l)%list
    = (Py.str_mul d n, Some (i + Z.of_nat m - (n - 1))).
Proof.
  intros Hd. induction m as [|m IH]; intros i k Hm Hk Hn; [lia|].
  cbn [replicate app first_run_from]. rewrite Hd. cbn [negb char_is].
  rewrite Ascii.eqb_refl.
  destruct (Z.eqb_spec (k + 1) n) as [E|E].
  - do 2 f_equal. lia.
  - rewrite IH by lia. do 2 f_equal. lia.
Qed.

(** After a non-digit, [n] copies of a digit are a run of [n] that
    starts right after it, whatever the run before. *)
Lemma first_run_from_reset (n i : Z) (rc : option ascii) (rl : Z) (ch d : ascii)
  (l : list ascii) :
  Py.isdigit ch = false -> Py.isdigit d = true -> 1 <= n ->
  first_run_from n i rc rl (ch :: replicate (Z.to_nat n) d ++ l)%list
  = (Py.str_mul d n, Some (i + 2)).
Proof.
  intros Hch Hd Hn. cbn [first_run_from]. rewrite Hch. cbn [negb].
  replace (Z.to_nat n) with (S (Z.to_nat (n - 1))) by lia.
  cbn [replicate app first_run_from]. rewrite Hd. cbn [negb char_is].
  destruct (Z.eqb_spec 1 n) as [E|E].
  - do 2 f_equal. lia.
  - rewrite (first_run_from_copies n d l Hd) by lia. do 2 f_equal. lia.
Qed.

(** While nothing is found the loop goes on, in some run state. *)
Lemma first_run_from_app_none (n : Z) (l1 : list ascii) : forall i rc rl,
  snd (first_run_from n i rc rl l1) = None ->
  exists rc' rl', forall l2,
    first_run_from n i rc rl (l1 ++ l2)%list
    = first_run_from n (i + Z.of_nat (length l1)) rc' rl' l2.
Proof.
  induction l1 as [|c l1 IH]; intros i rc rl H.
  - exists rc, rl. intros l2. cbn [app length]. f_equal. lia.
  - cbn [first_run_from] in H.
    destruct (negb (Py.isdigit c)) eqn:Ec.
    + destruct (IH _ _ _ H) as (rc' & rl' & IH').
      exists rc', rl'. intros l2. cbn [app first_run_from length]. rewrite Ec, IH'.
      f_equal. lia.
    + destruct ((if char_is c rc then rl + 1 else 1) =? n) eqn:En; [discriminate H|].
      destruct (IH _ _ _ H) as (rc' & rl' & IH').
      exists rc', rl'. intros l2. cbn [app first_run_from length]. rewrite Ec, En, IH'.
      f_equal. lia.
Qed.

(** C9 (reset property).  Whatever the run before, a non-digit [ch]
    followed by a digit [d] leaves the run at [d] with length 1.  In
    the inner loop of [find_first_runs] the search goes on as from the
    start state at [d], so [n] copies of [d] after the non-digit are
    found as the run of [n], at the position right after the
    non-digit and from any run state: also after any text in which the
    search is still on.  In both loops of [curses_main] the run
    character is [d] and the run length 1 after the two steps. *)
Theorem C9_reset_property (rc : option ascii) (rl : Z) (ch d : ascii) :
  Py.isdigit ch = false -> Py.isdigit d = true ->
  (forall n i l,
      first_run_from n i rc rl (ch :: d :: l) = first_run_from n (i + 1) None 0 (d :: l)
      /\ (n <> 1 ->
          first_run_from n i rc rl (ch :: d :: l)
          = first_run_from n (i + 1 + 1) (Some d) 1 l))
  /\ (forall n i l,
        1 <= n ->
        first_run_from n i rc rl (ch :: replicate (Z.to_nat n) d ++ l)%list
        = (Py.str_mul d n, Some (i + 2)))
  /\ (forall n before after,
        1 <= n ->
        snd (first_run before n) = None ->
        first_run (before ++ String ch (Py.str_mul d n ++ after)) n
        = (Py.str_mul d n, Some (Py.len before + 2)))
  /\ (forall st,
        run_char st = rc -> run_len st = rl ->
        run_char (batch_step (batch_step st ch) d) = Some d
        /\ run_len (batch_step (batch_step st ch) d) = 1)
  /\ (forall st,
        run_char st = rc -> run_len st = rl ->
        run_char (live_step (live_step st ch) d) = Some d
        /\ run_len (live_step (live_step st ch) d) = 1).
Proof.
  intros Hch Hd. split; [|split; [|split; [|split]]].
  - intros n i l. split.
    + cbn [first_run_from]. rewrite Hch. reflexivity.
    + intros Hn. cbn [first_run_from]. rewrite Hch, Hd. cbn [negb char_is].
      destruct (Z.eqb_spec 1 n); [congruence | reflexivity].
  - intros n i l Hn. apply first_run_from_reset; assumption.
  - intros n before after Hn Hnone. unfold first_run in *.
    destruct (first_run_from_app_none n (Py.chars before) 0 None 0 Hnone)
      as (rc' & rl' & Happ).
    rewrite chars_app, Happ.
    change (Py.chars (String ch (Py.str_mul d n ++ after)))
      with (ch :: Py.chars (Py.str_mul d n ++ after))%list.
    rewrite chars_app, chars_str_mul.
    rewrite first_run_from_reset by assumption.
    rewrite length_chars. unfold Py.len. do 2 f_equal.
  - intros st _ _. split.
    + unfold batch_step at 2. rewrite Hch. cbn [negb].
      unfold batch_step. cbn [total_pos run_char run_len remaining header digit_win pauses].
      rewrite Hd. cbn [negb advance_run]. destruct (decide _); reflexivity.
    + unfold batch_step at 2. rewrite Hch. cbn [negb].
      unfold batch_step. cbn [total_pos run_char run_len remaining header digit_win pauses].
      rewrite Hd. cbn [negb advance_run]. destruct (decide _); reflexivity.
  - intros st _ _. split.
    + unfold live_step. rewrite Hch. cbn [negb total_pos run_char run_len]. rewrite Hd.
      reflexivity.
    + unfold live_step. rewrite Hch. cbn [negb total_pos run_char run_len]. rewrite Hd.
      reflexivity.
Qed.

Lemma C9_reset_property_witness :
  Py.isdigit "."%char = false /\ Py.isdigit "7"%char = true
  /\ first_run_from 3 10 (Some "7"%char) 2 (Py.chars ".777")
     = ("777", Some 12)
  /\ first_run "1.77.7778" 3 = ("777", Some 6)
  /\ (forall st,
        run_char st = Some "3"%char -> run_len st = 4 ->
        run_char (batch_step (batch_step st ".") "7") = Some "7"%char
        /\ run_len (batch_step (batch_step st ".") "7") = 1).
Proof.
  split; [reflexivity|]. split; [reflexivity|].
  destruct (C9_reset_property (Some "7"%char) 2 "." "7" eq_refl eq_refl)
    as (_ & H1 & H2 & _).
  destruct (C9_reset_property (Some "3"%char) 4 "." "7" eq_refl eq_refl)
    as (_ & _ & _ & H3 & _).
  split; [exact (H1 3 10 [] ltac:(lia))|].
  split; [exact (H2 3 "1.77" "8" ltac:(lia) eq_refl)|].
  exact H3.
Defined.

End ScannerClaims.

(* ================================================================== *)
(** * 13. The digits [get_phi_prefix] returns *)
(* ================================================================== *)

Section ExactDigits.


(** Cutting the golden ratio after [J] digits and then after [j] is
    cutting it after [j]. *)
Lemma phi_floor_cut (j J : Z) :
  0 <= j <= J -> phi_floor J / 10 ^ (J - j) = phi_floor j.
Proof.
  intros H. unfold phi_floor.
  set (D := 10 ^ (J - j)).
  assert (0 < D) as HD by (apply pow10_pos; lia).
  assert (10 ^ J = 10 ^ j * D) as HJ.
  { unfold D. rewrite <- Z.pow_add_r by lia. f_equal. lia. }
  assert (Z.sqrt (5 * 100 ^ J) / D = Z.sqrt (5 * 100 ^ j)) as HS.
  { replace J with (j + (J - j)) at 1 by lia.
    rewrite Z.pow_add_r by lia. rewrite (pow100 (J - j)) by lia. fold D.
    rewrite Z.mul_assoc. apply sqrt_scale; [|exact HD].
    pose proof (Z.pow_pos_nonneg 100 j). lia. }
  rewrite Z.div_div by lia. rewrite (Z.mul_comm 2 D), <- Z.div_div by lia.
  rewrite HJ, Z.div_add_l by lia. rewrite HS. reflexivity.
Qed.

(** The coefficient computed at precision [p] is the golden ratio cut
    after [p - 1] digits, or one more. *)
Lemma phi_coeff_near (p : Z) :
  2 <= p -> phi_floor (p - 1) <= phi_coeff p <= phi_floor (p - 1) + 1.
Proof.
  intros Hp. pose proof (phi_coeff_accurate p (p - 1) Hp ltac:(lia)) as H.
  replace (p - 1 - (p - 1)) with 0 in H by lia.
  change (10 ^ 0) with 1 in H. rewrite Z.div_1_r in H. exact H.
Qed.

Lemma div_succ_same (u M : Z) :
  0 < M -> u mod M <> M - 1 -> (u + 1) / M = u / M.
Proof.
  intros HM Hu. symmetry.
  apply (Z.div_unique (u + 1) M (u / M) (u mod M + 1)).
  - left. pose proof (Z.mod_pos_bound u M HM). lia.
  - pose proof (Z.div_mod u M ltac:(lia)). lia.
Qed.

(** Where the [m] digits of the golden ratio after the cut are not all
    9, the cut of the computed coefficient is the cut of the golden
    ratio. *)
Lemma exact_cut (p k m : Z) :
  2 <= p -> 0 <= k -> 1 <= m -> k + m <= p - 1 ->
  phi_floor (k + m) mod 10 ^ m <> 10 ^ m - 1 ->
  phi_coeff p / 10 ^ (p - 1 - k) = phi_floor k.
Proof.
  intros Hp Hk Hm Hkm Hn.
  pose proof (phi_coeff_near p Hp) as Hq.
  remember (phi_coeff p) as q eqn:Eq. clear Eq.
  remember (phi_floor (p - 1)) as F eqn:EF.
  remember (10 ^ (p - 1 - (k + m))) as C eqn:EC.
  assert (0 < C) as HC by (subst C; apply pow10_pos; lia).
  pose proof (pow10_pos m ltac:(lia)) as HM.
  assert (10 ^ (p - 1 - k) = C * 10 ^ m) as HB.
  { subst C. rewrite <- Z.pow_add_r by lia. f_equal. lia. }
  assert (F / C = phi_floor (k + m)) as Hu by (subst F C; apply phi_floor_cut; lia).
  assert (F / C / 10 ^ m = phi_floor k) as Ht.
  { rewrite Z.div_div by lia. rewrite <- HB. subst F. apply phi_floor_cut. lia. }
  rewrite HB, <- Z.div_div by lia.
  assert (F / C <= q / C <= F / C + 1) as Hqc.
  { split; [apply Z.div_le_mono; lia|].
    rewrite <- (Z.div_add F 1 C) by lia. apply Z.div_le_mono; lia. }
  rewrite <- Ht. rewrite <- Hu in Hn.
  remember (F / C) as u eqn:Eu. remember (q / C) as u' eqn:Eu'.
  assert (u' = u \/ u' = u + 1) as [-> | ->] by lia; [reflexivity|].
  apply div_succ_same; assumption.
Qed.

(** The last character of [format_phi p] is the last digit of the
    coefficient. *)
Lemma format_phi_last (p : Z) :
  2 <= p ->
  exists X,
    String.length X = Z.to_nat (p - 2)
    /\ format_phi p
       = String "1" (String "." (X ++ String (Py.digit_char (phi_coeff p mod 10)) "")).
Proof.
  intros Hp. exists (digits_fixed (Z.to_nat (p - 2)) (phi_coeff p / 10) EmptyString).
  split; [rewrite length_digits_fixed; simpl; lia|].
  rewrite (format_phi_eq p Hp). unfold phi_frac. do 2 f_equal.
  generalize (phi_coeff p). intros q.
  replace (Z.to_nat (p - 1)) with (Z.to_nat (p - 2) + 1)%nat by lia.
  rewrite digits_fixed_split. change (10 ^ Z.of_nat 1) with 10.
  rewrite digits_fixed_acc. reflexivity.
Qed.

Lemma last_digit_not_zero (p : Z) :
  2 <= p -> last_not_zero (format_phi p) = true -> phi_coeff p mod 10 <> 0.
Proof.
  intros Hp Hlast E.
  destruct (format_phi_last p Hp) as (X & HX & Hf). rewrite E in Hf.
  pose proof (len_format_phi p Hp) as Hl.
  revert Hlast. unfold last_not_zero. rewrite Hl.
  generalize dependent (format_phi p). intros s -> _.
  unfold Py.slice_from. destruct (Z.leb_spec 0 (p + 1 - 1)); [|lia].
  replace (Z.to_nat (p + 1 - 1)) with (S (S (String.length X))) by lia.
  cbn [Py.drop]. rewrite drop_app_length. discriminate.
Qed.

(** A scan that finds no run of six: no six equal digits in a row. *)
Lemma scan_no_window (s : string) (c : ascii) (A B : list ascii) :
  no_run_of_six s = true -> Py.isdigit c = true ->
  Py.chars s <> (A ++ replicate 6 c ++ B)%list.
Proof.
  intros Hscan Hc. unfold no_run_of_six, first_run in Hscan.
  pose proof (first_run_from_correct 6 (Py.chars s) [] ltac:(lia)
                (no_run_nil 6 ltac:(lia))) as Hcorr.
  cbn [length trail fst snd] in Hcorr. change (Z.of_nat 0) with 0 in Hcorr.
  destruct (first_run_from 6 0 None 0 (Py.chars s)) as [seq [pos|]];
    [discriminate Hscan|].
  destruct Hcorr as [_ Hno]. exact (Hno c A B Hc).
Qed.

(** Six digits 9 in the number are six characters "9" in its digits. *)
Lemma window_of_nines (a e : nat) (q : Z) :
  (q / 10 ^ Z.of_nat e) mod 10 ^ 6 = 999999 ->
  digits_fixed (a + 6 + e) q EmptyString
  = (digits_fixed a (q / 10 ^ Z.of_nat (6 + e)) EmptyString
       ++ "999999" ++ digits_fixed e q EmptyString)%string.
Proof.
  intros H.
  replace (a + 6 + e)%nat with (a + (6 + e))%nat by lia.
  rewrite digits_fixed_split, digits_fixed_acc. f_equal.
  rewrite digits_fixed_split.
  rewrite (digits_fixed_mod 6 _ 999999) by exact H.
  reflexivity.
Qed.

(** No six digits 9 in a row in the golden ratio within the digits
    computed at precision [p0], when the scan of these finds no run of
    six and the last of them is not 0. *)
Lemma no_nines_from_scan (p0 j : Z) :
  8 <= p0 ->
  no_run_of_six (format_phi p0) = true ->
  last_not_zero (format_phi p0) = true ->
  6 <= j <= p0 - 2 ->
  phi_floor j mod 10 ^ 6 <> 999999.
Proof.
  intros Hp0 Hscan Hlast Hj Hnines.
  assert (2 <= p0) as Hp by lia.
  pose proof (phi_coeff_near p0 Hp) as Hq.
  pose proof (last_digit_not_zero p0 Hp Hlast) as Hq10.
  pose proof (format_phi_eq p0 Hp) as Hfmt. unfold phi_frac in Hfmt.
  remember (phi_coeff p0) as q0 eqn:Eq0. clear Eq0.
  assert (phi_floor j = q0 / 10 ^ (p0 - 1 - j)) as Hfj.
  { rewrite <- (phi_floor_cut j (p0 - 1)) by lia.
    remember (phi_floor (p0 - 1)) as F eqn:EF. clear EF.
    replace (p0 - 1 - j) with (1 + (p0 - 2 - j)) by lia.
    rewrite Z.pow_add_r by lia. change (10 ^ 1) with 10.
    rewrite <- !Z.div_div by (try apply pow10_pos; lia).
    f_equal. clear - Hq Hq10. dlia. }
  rewrite Hfj in Hnines.
  remember (Z.to_nat (p0 - 1 - j)) as e eqn:Ee.
  remember (Z.to_nat (j - 6)) as a eqn:Ea.
  replace (p0 - 1 - j) with (Z.of_nat e) in Hnines by lia.
  pose proof (window_of_nines a e q0 Hnines) as Hwin.
  replace (Z.to_nat (p0 - 1)) with (a + 6 + e)%nat in Hfmt by lia.
  rewrite Hwin in Hfmt.
  apply (scan_no_window (format_phi p0) "9"
           ("1"%char :: "."%char
              :: Py.chars (digits_fixed a (q0 / 10 ^ Z.of_nat (6 + e)) EmptyString))
           (Py.chars (digits_fixed e q0 EmptyString)) Hscan eq_refl).
  rewrite Hfmt.
  change (Py.chars (String "1" (String "." ?x))) with ("1"%char :: "."%char :: Py.chars x).
  rewrite !chars_app. reflexivity.
Qed.







End ExactDigits.

(* ================================================================== *)
(** * 14. The streaming loops against [find_first_runs] *)
(* ================================================================== *)

Section Streaming.

Lemma py_range_2_10 : py_range 2 10 = [2; 3; 4; 5; 6; 7; 8; 9]%list.
Proof. reflexivity. Qed.

Lemma length_cases (n : Z) :
  2 <= n <= 9 -> n = 2 \/ n = 3 \/ n = 4 \/ n = 5 \/ n = 6 \/ n = 7 \/ n = 8 \/ n = 9.
Proof. lia. Qed.

Lemma all_lengths_elem (n : Z) : 2 <= n <= 9 -> n ∈ all_lengths.
Proof.
  intros H. unfold all_lengths. rewrite py_range_2_10.
  apply elem_of_list_to_set.
  destruct (length_cases n H) as [-> | [-> | [-> | [-> | [-> | [-> | [-> | ->]]]]]]];
    repeat constructor.
Qed.

Lemma initial_shown (n : Z) : 2 <= n <= 9 -> shown initial_screen n = Some ("N/A", None).
Proof.
  intros H.
  destruct (length_cases n H) as [-> | [-> | [-> | [-> | [-> | [-> | [-> | ->]]]]]]];
    reflexivity.
Qed.

Lemma removed_gone (n : Z) (X : gset Z) : n ∉ X ∖ {[ n ]}.
Proof. rewrite elem_of_difference, elem_of_singleton. intros [_ H]. apply H. reflexivity. Qed.

Lemma removed_other (n m : Z) (X : gset Z) : n ∈ X -> m <> n -> n ∈ X ∖ {[ m ]}.
Proof.
  intros Hn Hne. rewrite elem_of_difference, elem_of_singleton.
  split; [exact Hn | congruence].
Qed.

Lemma removed_absent (n m : Z) (X : gset Z) : n ∉ X -> n ∉ X ∖ {[ m ]}.
Proof. rewrite elem_of_difference. intros Hn [H _]. exact (Hn H). Qed.

(** A length that is no more awaited keeps its row. *)
Lemma batch_step_other (n : Z) (st : screen) (ch : ascii) :
  n ∉ remaining st ->
  header (batch_step st ch) !! n = header st !! n /\ n ∉ remaining (batch_step st ch).
Proof.
  intros Hn. unfold batch_step.
  destruct (negb (Py.isdigit ch)); [split; [reflexivity | exact Hn]|].
  destruct (advance_run _ _ _) as [rc rl].
  destruct (decide (rl ∈ remaining st)) as [Hin|Hout]; cbn [header remaining].
  - assert (rl <> n) as Hne by (intros Heq; apply Hn; rewrite <- Heq; exact Hin).
    split; [apply lookup_insert_ne; exact Hne | apply removed_absent, Hn].
  - split; [reflexivity | exact Hn].
Qed.

Lemma batch_phase_other (n : Z) (l : list ascii) : forall st,
  n ∉ remaining st -> header (batch_phase st l) !! n = header st !! n.
Proof.
  induction l as [|ch l IH]; intros st Hn; [reflexivity|].
  cbn [batch_phase]. destruct (batch_step_other n st ch Hn) as [H1 H2].
  rewrite IH by exact H2. exact H1.
Qed.

(** While [n] is awaited, the loop over the static prefix fills row [n]
    with what the inner loop of [find_first_runs] breaks on. *)
Lemma batch_phase_first_run (n : Z) (l : list ascii) : forall st,
  n ∈ remaining st ->
  shown (batch_phase st l) n
  = match first_run_from n (total_pos st) (run_char st) (run_len st) l with
    | (seq, Some pos) => Some (seq, Some pos)
    | (_, None) => shown st n
    end.
Proof.
  induction l as [|ch l IH]; intros st Hn; [reflexivity|].
  cbn [batch_phase first_run_from]. unfold batch_step.
  destruct (Py.isdigit ch) eqn:Hd; cbn [negb].
  - rewrite advance_run_eq.
    set (rl := if char_is ch (run_char st) then run_len st + 1 else 1).
    destruct (decide (rl ∈ remaining st)) as [Hin|Hout].
    + destruct (Z.eqb_spec rl n) as [->|Hne].
      * unfold shown. rewrite batch_phase_other by (cbn [remaining]; apply removed_gone).
        cbn [header]. rewrite lookup_insert_eq. cbn [row_seq row_pos].
        do 3 f_equal. lia.
      * rewrite IH by (cbn [remaining]; apply removed_other; assumption).
        cbn [total_pos run_char run_len]. destruct (first_run_from _ _ _ _ _) as [seq [pos|]];
          [reflexivity|].
        unfold shown. cbn [header]. rewrite lookup_insert_ne by exact Hne. reflexivity.
    + destruct (Z.eqb_spec rl n) as [->|Hne]; [contradiction|].
      rewrite IH by exact Hn. reflexivity.
  - rewrite IH by exact Hn. reflexivity.
Qed.

Lemma batch_phase_gone (n : Z) (l : list ascii) : forall st,
  n ∉ remaining st -> n ∉ remaining (batch_phase st l).
Proof.
  induction l as [|ch l IH]; intros st Hn; [exact Hn|].
  cbn [batch_phase]. apply IH. apply (batch_step_other n st ch Hn).
Qed.

(** While [n] is awaited, it stays so through the loop exactly when
    the inner loop of [find_first_runs] finds nothing. *)
Lemma batch_phase_awaited (n : Z) (l : list ascii) : forall st,
  n ∈ remaining st ->
  n ∈ remaining (batch_phase st l)
  <-> snd (first_run_from n (total_pos st) (run_char st) (run_len st) l) = None.
Proof.
  induction l as [|ch l IH]; intros st Hn.
  - cbn [batch_phase first_run_from snd]. split; [reflexivity | intros _; exact Hn].
  - cbn [batch_phase first_run_from]. unfold batch_step.
    destruct (Py.isdigit ch) eqn:Hd; cbn [negb].
    + rewrite advance_run_eq.
      set (rl := if char_is ch (run_char st) then run_len st + 1 else 1).
      destruct (decide (rl ∈ remaining st)) as [Hin|Hout].
      * destruct (Z.eqb_spec rl n) as [Heq|Hne].
        -- cbn [snd]. split; [|discriminate].
           intros H. exfalso. revert H. apply batch_phase_gone.
           cbn [remaining]. rewrite Heq. apply removed_gone.
        -- rewrite IH by (cbn [remaining]; apply removed_other; assumption). reflexivity.
      * destruct (Z.eqb_spec rl n) as [Heq|Hne]; [subst; contradiction|].
        rewrite IH by exact Hn. reflexivity.
    + rewrite IH by exact Hn. reflexivity.
Qed.

Lemma first_run_from_none (n : Z) (l : list ascii) : forall i rc rl seq,
  first_run_from n i rc rl l = (seq, None) -> seq = "N/A".
Proof.
  induction l as [|ch l IH]; intros i rc rl seq H; cbn [first_run_from] in H.
  - congruence.
  - destruct (negb (Py.isdigit ch)); [exact (IH _ _ _ _ H)|].
    destruct (_ =? n); [discriminate | exact (IH _ _ _ _ H)].
Qed.

(** C10 (the two scanners agree).  For every input and every n in 2..9,
    the entry [find_first_runs] computes for [n] by its own pass is what
    the single pass of [curses_main] over the same characters leaves
    in row [n] of the header: the same sequence and start position, or
    "N/A" without a position in both; and [n] is still awaited after
    the pass exactly when no position was recorded. *)
Theorem C10_scanners_agree (s : string) (n : Z) :
  2 <= n <= 9 ->
  dict_get n (find_first_runs s 9)
  = shown (batch_phase initial_screen (Py.chars s)) n
  /\ (n ∈ remaining (batch_phase initial_screen (Py.chars s))
      <-> exists seq, dict_get n (find_first_runs s 9) = Some (seq, None)).
Proof.
  intros Hn. rewrite dict_get_find_first_runs by exact Hn. split.
  - rewrite (batch_phase_first_run n (Py.chars s) initial_screen (all_lengths_elem n Hn)).
    unfold first_run. cbn [total_pos run_char run_len initial_screen].
    destruct (first_run_from n 0 None 0 (Py.chars s)) as [seq [pos|]] eqn:E;
      [reflexivity|].
    rewrite (first_run_from_none _ _ _ _ _ _ E). symmetry. apply initial_shown, Hn.
  - rewrite (batch_phase_awaited n (Py.chars s) initial_screen (all_lengths_elem n Hn)).
    unfold first_run. cbn [total_pos run_char run_len initial_screen].
    destruct (first_run_from n 0 None 0 (Py.chars s)) as [seq pos]. cbn [snd].
    split; [intros ->; exists seq; reflexivity | intros [seq' [= _ ->]]; reflexivity].
Qed.

Lemma C10_scanners_agree_witness :
  2 <= 2 <= 9 /\
  dict_get 2 (find_first_runs "1.61803398" 9)
  = shown (batch_phase initial_screen (Py.chars "1.61803398")) 2.
Proof.
  split; [lia|]. apply (C10_scanners_agree "1.61803398" 2). lia.
Defined.

(** C6, as amended.  The live loop writes no first-run record and gives
    no milestone: a live step leaves the awaited lengths, the header
    rows and the count of pauses as they are, while it advances the
    position by one and updates the run and the digit window as a step
    of the first loop does; so they are unchanged after any number of
    live characters. *)
Theorem C6_live_phase_records_nothing :
  (forall st ch,
      remaining (live_step st ch) = remaining st
      /\ header (live_step st ch) = header st
      /\ pauses (live_step st ch) = pauses st
      /\ total_pos (live_step st ch) = total_pos st + 1
      /\ run_char (live_step st ch) = run_char (batch_step st ch)
      /\ run_len (live_step st ch) = run_len (batch_step st ch)
      /\ digit_win (live_step st ch) = digit_win (batch_step st ch))
  /\ (forall fuel k st g,
        match live_phase fuel k st g with
        | Some (st', _) =>
            remaining st' = remaining st /\ header st' = header st
            /\ pauses st' = pauses st
        | None => True
        end).
Proof.
  assert (forall st ch,
      remaining (live_step st ch) = remaining st
      /\ header (live_step st ch) = header st
      /\ pauses (live_step st ch) = pauses st
      /\ total_pos (live_step st ch) = total_pos st + 1
      /\ run_char (live_step st ch) = run_char (batch_step st ch)
      /\ run_len (live_step st ch) = run_len (batch_step st ch)
      /\ digit_win (live_step st ch) = digit_win (batch_step st ch)) as Hstep.
  { intros st ch. unfold live_step, batch_step.
    destruct (negb (Py.isdigit ch)); [repeat split; reflexivity|].
    destruct (advance_run _ _ _) as [rc rl].
    destruct (decide _); repeat split; reflexivity. }
  split; [exact Hstep|].
  intros fuel k. induction k as [|k IH]; intros st g; cbn [live_phase].
  - repeat split; reflexivity.
  - destruct (gen_next fuel g) as [[ch g']|]; [|exact I].
    specialize (IH (live_step st ch) g').
    destruct (live_phase fuel k (live_step st ch) g') as [[st' g'']|]; [|exact I].
    destruct (Hstep st ch) as (H1 & H2 & H3 & _).
    destruct IH as (I1 & I2 & I3).
    rewrite I1, I2, I3. repeat split; assumption.
Qed.

(** Against C6 as stated: after the first loop over "1.77777" no run
    of length 6 is recorded and 6 is awaited; the live step on a sixth
    "7" brings the run to length 6, and still 6 is awaited, row 6 shows
    "N/A" and no pause was made. *)
Lemma C6_counterexample :
  let st := batch_phase initial_screen (Py.chars "1.77777") in
  let st' := live_step st "7" in
  6 ∈ remaining st /\ shown st 6 = Some ("N/A", None)
  /\ run_char st' = Some "7"%char /\ run_len st' = 6
  /\ 6 ∈ remaining st' /\ shown st' 6 = Some ("N/A", None)
  /\ pauses st' = pauses st
  /\ shown (batch_step st "7") 6 = Some ("777777", Some 3).
Proof.
  cbv zeta.
  assert (6 ∈ remaining (batch_phase initial_screen (Py.chars "1.77777"))) as H6.
  { apply (batch_phase_awaited 6 (Py.chars "1.77777") initial_screen).
    - apply all_lengths_elem. lia.
    - reflexivity. }
  repeat split; try exact H6; reflexivity.
Qed.

End Streaming.

(* ================================================================== *)
(** * 15. The startup check *)
(* ================================================================== *)

Section DebugCheck.

Local Open Scope list_scope.

Lemma entry_differs (es fs : string) (ep fp : option Z) :
  negb (String.eqb es fs) || negb (pos_eqb ep fp) = true <-> (es, ep) <> (fs, fp).
Proof.
  destruct (String.eqb_spec es fs) as [->|Hs]; cbn [negb orb].
  - destruct (pos_eqb ep fp) eqn:E; cbn [negb].
    + apply pos_eqb_eq in E as ->. split; [discriminate | congruence].
    + split; [|reflexivity]. intros _ [= H]. apply pos_eqb_eq in H. congruence.
  - split; [|reflexivity]. intros _ [= H _]. contradiction.
Qed.

(** The list of mismatches holds a row for each key whose entries
    differ, and nothing else. *)
Lemma collect_mismatches_spec (truth found : dict) (ns : list Z) :
  (forall n, In n ns -> dict_get n truth <> None /\ dict_get n found <> None) ->
  exists ms,
    collect_mismatches ns truth found = Some ms
    /\ (forall m, In m ms <->
          In (mm_n m) ns
          /\ dict_get (mm_n m) truth = Some (mm_exp_seq m, mm_exp_pos m)
          /\ dict_get (mm_n m) found = Some (mm_fnd_seq m, mm_fnd_pos m)
          /\ (mm_exp_seq m, mm_exp_pos m) <> (mm_fnd_seq m, mm_fnd_pos m)).
Proof.
  induction ns as [|n ns IH]; intros Hk.
  - exists []. split; [reflexivity|]. intros m. split; [intros [] | intros [[] _]].
  - destruct IH as (ms & Hms & Hspec).
    { intros k Hin. apply Hk. right. exact Hin. }
    destruct (Hk n (or_introl eq_refl)) as [Ht Hf].
    cbn [collect_mismatches].
    destruct (dict_get n truth) as [[es ep]|] eqn:Et; [|congruence].
    destruct (dict_get n found) as [[fs fp]|] eqn:Ef; [|congruence].
    rewrite Hms.
    destruct (negb (String.eqb es fs) || negb (pos_eqb ep fp)) eqn:Ed.
    + apply entry_differs in Ed.
      eexists. split; [reflexivity|]. intros m. cbn [In]. rewrite Hspec. split.
      * intros [<- | (H1 & H2 & H3 & H4)]; cbn [mm_n mm_exp_seq mm_exp_pos mm_fnd_seq mm_fnd_pos].
        -- repeat split; try assumption. left. reflexivity.
        -- repeat split; try assumption. right. exact H1.
      * intros ([Heq | H1] & H2 & H3 & H4).
        -- left. destruct m as [k a b c d].
           cbn [mm_n mm_exp_seq mm_exp_pos mm_fnd_seq mm_fnd_pos] in *.
           subst k. rewrite Et in H2. rewrite Ef in H3.
           injection H2 as -> ->. injection H3 as -> ->. reflexivity.
        -- right. repeat split; assumption.
    + assert (~ (es, ep) <> (fs, fp)) as Hsame.
      { intros H. apply entry_differs in H. congruence. }
      exists ms. split; [reflexivity|]. intros m. cbn [In]. rewrite Hspec. split.
      * intros (H1 & H2 & H3 & H4). repeat split; try assumption. right. exact H1.
      * intros ([Heq | H1] & H2 & H3 & H4).
        -- exfalso. apply Hsame. rewrite <- Heq in H2, H3.
           rewrite Et in H2. rewrite Ef in H3.
           injection H2 as -> ->. injection H3 as -> ->. exact H4.
        -- repeat split; assumption.
Qed.

Lemma in_range_2_10 (n : Z) : In n (py_range 2 10) <-> 2 <= n <= 9.
Proof.
  rewrite py_range_2_10. cbn [In]. split; [intros H | intros H].
  - intuition lia.
  - destruct (length_cases n H) as [-> | [-> | [-> | [-> | [-> | [-> | [-> | ->]]]]]]]; tauto.
Qed.

Lemma has_keys_get (truth : dict) (n : Z) :
  has_keys truth = true -> 2 <= n <= 9 -> dict_get n truth <> None.
Proof.
  unfold has_keys. rewrite forallb_forall. intros H Hn.
  specialize (H n (proj2 (in_range_2_10 n) Hn)).
  destruct (dict_get n truth); [discriminate | discriminate H].
Qed.

(** The rows reported are those of the keys whose entries differ, in
    the order of the keys. *)
Lemma collect_mismatches_report (truth found : dict) (ns : list Z) :
  (forall n, In n ns -> dict_get n truth <> None /\ dict_get n found <> None) ->
  exists ms,
    collect_mismatches ns truth found = Some ms
    /\ flat_map report_lines ms
       = flat_map (fun n =>
                     if decide (dict_get n truth = dict_get n found) then []
                     else match dict_get n truth, dict_get n found with
                          | Some (es, ep), Some (fs, fp) =>
                              report_lines (Mismatch n es ep fs fp)
                          | _, _ => []
                          end) ns.
Proof.
  induction ns as [|n ns IH]; intros Hk.
  - exists []. split; reflexivity.
  - destruct IH as (ms & Hms & Hflat).
    { intros k Hin. apply Hk. right. exact Hin. }
    destruct (Hk n (or_introl eq_refl)) as [Ht Hf].
    cbn [collect_mismatches flat_map].
    destruct (dict_get n truth) as [[es ep]|] eqn:Et; [|congruence].
    destruct (dict_get n found) as [[fs fp]|] eqn:Ef; [|congruence].
    rewrite Hms.
    destruct (negb (String.eqb es fs) || negb (pos_eqb ep fp)) eqn:Ed.
    + apply entry_differs in Ed.
      destruct (decide _) as [E|_]; [congruence|].
      eexists. split; [reflexivity|]. cbn [flat_map]. rewrite Hflat. reflexivity.
    + destruct (decide _) as [_|E].
      * exists ms. split; [reflexivity|]. exact Hflat.
      * exfalso. assert ((es, ep) <> (fs, fp)) as H by congruence.
        apply entry_differs in H. congruence.
Qed.

Lemma flat_map_ext_in {A B : Type} (f g : A -> list B) (l : list A) :
  (forall a, In a l -> f a = g a) -> flat_map f l = flat_map g l.
Proof.
  induction l as [|a l IH]; intros H; [reflexivity|].
  cbn [flat_map]. rewrite (H a (or_introl eq_refl)), IH; [reflexivity|].
  intros b Hb. apply H. right. exact Hb.
Qed.

Lemma str_int_digit (n : Z) :
  2 <= n <= 9 -> Py.str_int n = String (ascii_of_nat (48 + Z.to_nat n)) "".
Proof.
  intros H.
  destruct (length_cases n H) as [-> | [-> | [-> | [-> | [-> | [-> | [-> | ->]]]]]]];
    reflexivity.
Qed.

(** [repr] copies the printable ASCII characters other than the single
    quote and the backslash. *)
Lemma escape_char_plain (c : ascii) :
  (32 <= N_of_ascii c <= 126)%N -> c <> "'"%char -> c <> "\"%char ->
  escape_char quote1 c = String c "" /\ Ascii.eqb quote1 c = false.
Proof.
  intros Hc Hq Hb. unfold escape_char, isprintable, quote1, backslash.
  destruct (Ascii.eqb_spec c "'") as [|_]; [contradiction|].
  destruct (Ascii.eqb_spec c "\") as [|_]; [contradiction|].
  destruct (Ascii.eqb_spec "'" c) as [|_]; [congruence|].
  cbn [orb].
  destruct (N.eqb_spec (N_of_ascii c) 9); [lia|].
  destruct (N.eqb_spec (N_of_ascii c) 10); [lia|].
  destruct (N.eqb_spec (N_of_ascii c) 13); [lia|].
  destruct (N.leb_spec 32 (N_of_ascii c)); [|lia].
  destruct (N.leb_spec (N_of_ascii c) 126); [|lia].
  split; reflexivity.
Qed.

Lemma escape_char_digit (c : ascii) :
  Py.isdigit c = true ->
  escape_char quote1 c = String c "" /\ Ascii.eqb quote1 c = false.
Proof.
  destruct c as [[] [] [] [] [] [] [] []]; intros H; try discriminate H;
    split; reflexivity.
Qed.

Lemma py_repr_copies (s : string) :
  (forall c, In c (Py.chars s) ->
     escape_char quote1 c = String c "" /\ Ascii.eqb quote1 c = false) ->
  py_repr s = String "'" (s ++ "'").
Proof.
  intros H. unfold py_repr.
  assert (str_mem quote1 s = false /\ escape quote1 s = s) as [Hm He].
  { induction s as [|c s IH]; [split; reflexivity|].
    destruct (H c (or_introl eq_refl)) as [Hc Hq].
    destruct IH as [IH1 IH2].
    { intros c' Hc'. apply H. right. exact Hc'. }
    cbn [str_mem escape]. rewrite Hq, IH1, Hc, IH2. split; reflexivity. }
  rewrite Hm. cbn [andb]. cbv zeta. rewrite He. reflexivity.
Qed.

(** The sequence found is "N/A" or a digit repeated. *)
Lemma first_run_from_seq (n : Z) (l : list ascii) : forall i rc rl,
  fst (first_run_from n i rc rl l) = "N/A"
  \/ exists ch, Py.isdigit ch = true /\ fst (first_run_from n i rc rl l) = Py.str_mul ch n.
Proof.
  induction l as [|c l IH]; intros i rc rl; [left; reflexivity|].
  cbn [first_run_from].
  destruct (Py.isdigit c) eqn:Ec; cbn [negb]; [|apply IH].
  destruct (_ =? n); [|apply IH].
  right. exists c. split; [exact Ec | reflexivity].
Qed.

Lemma py_repr_found (prefix : string) (n : Z) (fs : string) (fp : option Z) :
  dict_get n (find_first_runs prefix 9) = Some (fs, fp) ->
  py_repr fs = String "'" (fs ++ "'").
Proof.
  intros H.
  assert (2 <= n <= 9) as Hn.
  { revert H. unfold find_first_runs, py_range. rewrite dict_get_map.
    change (Z.of_nat (Z.to_nat (9 + 1 - 2))) with 8. change (Z.of_nat 0) with 0.
    destruct (Z.leb_spec (2 + 0) n); [|discriminate].
    destruct (Z.ltb_spec n (2 + 0 + 8)); [|discriminate]. lia. }
  rewrite dict_get_find_first_runs in H by exact Hn.
  injection H as H.
  assert (fs = fst (first_run prefix n)) as -> by (rewrite H; reflexivity).
  apply py_repr_copies. intros c Hc. unfold first_run in Hc.
  destruct (first_run_from_seq n (Py.chars prefix) 0 None 0) as [E | (ch & Hch & E)];
    rewrite E in Hc.
  - cbn [Py.chars list_ascii_of_string In] in Hc.
    destruct Hc as [<- | [<- | [<- | []]]]; split; reflexivity.
  - rewrite chars_str_mul in Hc.
    assert (c = ch) as ->.
    { induction (Z.to_nat n) as [|m IH]; [destruct Hc|].
      destruct Hc as [<- | Hc]; [reflexivity | exact (IH Hc)]. }
    apply escape_char_digit, Hch.
Qed.

(** [str] of a number of [k] digits: these digits. *)
Lemma str_int_decimal (z k : Z) :
  1 <= k -> 10 ^ (k - 1) <= z < 10 ^ k ->
  all_chars Py.is_decimal_digit (Py.str_int z) = true
  /\ digits_value (Py.str_int z) 0 = z
  /\ Py.len (Py.str_int z) = k.
Proof.
  intros Hk Hz.
  pose proof (pow10_pos (k - 1) ltac:(lia)) as Hpos.
  unfold Py.str_int. destruct (Z.ltb_spec z 0); [lia|].
  rewrite (str_nonneg_fixed k z Hk Hz).
  split; [apply digits_fixed_decimal; reflexivity|].
  split.
  - rewrite (digits_value_fixed (Z.to_nat k) z EmptyString 0).
    + simpl digits_value. lia.
    + rewrite Z2Nat.id by lia. lia.
  - unfold Py.len. rewrite length_digits_fixed. simpl. lia.
Qed.

(** The check of the program itself passes. *)
Lemma run_debug_check_eq (truth : dict) (fuel : nat) :
  run_debug_check truth fuel
  = Some (debug_check truth (Py.slice_to (format_phi (20000 + 50)) 20000)).
Proof.
  unfold run_debug_check. rewrite get_phi_prefix_eq by discriminate. reflexivity.
Qed.

Lemma curses_main_starts (fuel : nat) (h w : Z) : exists c, curses_main fuel h w 0 = Some c.
Proof.
  unfold curses_main. destruct ((h <? 20) || (w <? 80)); [eexists; reflexivity|].
  unfold PHI_PREFIX_LENGTH. rewrite get_phi_prefix_eq by discriminate.
  cbn [live_phase]. eexists. reflexivity.
Qed.

(** C8 (verification failure reporting).  For any reference table with
    entries for 2..9 and any prefix, the check compares the eight
    pairs for n = 2..9.  When all eight equal the ones found, it
    writes the banner and the message that it passed, and returns.
    When some pair differs it ends in [sys.exit(1)], and its output is
    the banner, the heading, the report of every n whose pair
    differs, in increasing order of n and of no other n, and the
    closing line; the report of n is the three lines with n, the
    expected sequence and position and the found sequence and
    position.  A sequence is written between single quotes as it is
    when it is made of printable ASCII characters without single quote
    and backslash, and any sequence found is; a missing position is
    written None, a position as its decimal digits.  [main] makes the
    check over the 20,000 characters of [get_phi_prefix]: it goes on to
    [curses_main] when all pairs match, as they do for the table of the
    program, and stops without reaching it when one differs. *)
Theorem C8_verification_failure_reporting (truth : dict) (prefix : string) :
  has_keys truth = true ->
  let found := find_first_runs prefix 9 in
  let r := debug_check truth prefix in
  let eol := String "010" "" in
  let report n :=
    match dict_get n truth, dict_get n found with
    | Some (es, ep), Some (fs, fp) =>
        [ ("  n = " ++ String (ascii_of_nat (48 + Z.to_nat n)) "" ++ ":" ++ eol)%string;
          ("    Expected: seq = " ++ py_repr es ++ ", pos = " ++ fmt_pos ep ++ eol)%string;
          ("    Found:    seq = " ++ py_repr fs ++ ", pos = " ++ fmt_pos fp
             ++ eol ++ eol)%string ]
    | _, _ => []
    end in
  map fst found = [2; 3; 4; 5; 6; 7; 8; 9]
  /\ ((forall n, 2 <= n <= 9 -> dict_get n truth = dict_get n found)
      -> r = Run [banner; passed_message] Returns)
  /\ ((exists n, 2 <= n <= 9 /\ dict_get n truth <> dict_get n found)
      -> ended r = Raises (SystemExit 1)
         /\ stdout r
            = [banner; (eol ++ "DEBUG CHECK FAILED! Discrepancies:" ++ eol ++ eol)%string]
                ++ flat_map (fun n =>
                               if decide (dict_get n truth = dict_get n found)
                               then [] else report n)
                            [2; 3; 4; 5; 6; 7; 8; 9]
                ++ [("Exiting due to logic errors." ++ eol)%string])
  /\ (forall n,
        2 <= n <= 9 -> dict_get n truth <> dict_get n found ->
        length (report n) = 3%nat
        /\ exists before after, stdout r = before ++ report n ++ after)
  /\ (forall s,
        (forall c, In c (Py.chars s) ->
           (32 <= N_of_ascii c <= 126)%N /\ c <> "'"%char /\ c <> "\"%char) ->
        py_repr s = String "'" (s ++ "'")%string)
  /\ (forall n fs fp,
        dict_get n found = Some (fs, fp) -> py_repr fs = String "'" (fs ++ "'")%string)
  /\ fmt_pos None = "None"
  /\ (forall z k,
        1 <= k -> 10 ^ (k - 1) <= z < 10 ^ k ->
        all_chars Py.is_decimal_digit (fmt_pos (Some z)) = true
        /\ digits_value (fmt_pos (Some z)) 0 = z
        /\ Py.len (fmt_pos (Some z)) = k)
  /\ (forall fuel h w k,
        exists p,
          get_phi_prefix fuel 20000 = Returned p
          /\ ((forall n, 2 <= n <= 9 ->
                 dict_get n truth = dict_get n (find_first_runs p 9))
              -> main truth fuel h w k
                 = match curses_main fuel h w k with
                   | Some c => Some (Run [banner; passed_message] Returns, Some c)
                   | None => None
                   end)
          /\ ((exists n, 2 <= n <= 9
                         /\ dict_get n truth <> dict_get n (find_first_runs p 9))
              -> main truth fuel h w k = Some (debug_check truth p, None)
                 /\ ended (debug_check truth p) = Raises (SystemExit 1)))
  /\ (forall fuel h w,
        exists c,
          main GROUND_TRUTH fuel h w 0
          = Some (Run [banner; passed_message] Returns, Some c)).
Proof.
  intros Hkeys found r eol report.
  (* the check over any prefix *)
  assert (forall q,
             let fq := find_first_runs q 9 in
             ((forall n, 2 <= n <= 9 -> dict_get n truth = dict_get n fq)
              -> debug_check truth q = Run [banner; passed_message] Returns)
             /\ ((exists n, 2 <= n <= 9 /\ dict_get n truth <> dict_get n fq)
                 -> ended (debug_check truth q) = Raises (SystemExit 1)
                    /\ stdout (debug_check truth q)
                       = failure_head
                           ++ flat_map (fun n =>
                                if decide (dict_get n truth = dict_get n fq) then []
                                else match dict_get n truth, dict_get n fq with
                                     | Some (es, ep), Some (fs, fp) =>
                                         report_lines (Mismatch n es ep fs fp)
                                     | _, _ => []
                                     end) [2; 3; 4; 5; 6; 7; 8; 9]
                           ++ ["Exiting due to logic errors." ++ nl]%string)) as Hcheck.
  { intros q fq.
    assert (forall n, In n (py_range 2 10) ->
                      dict_get n truth <> None /\ dict_get n fq <> None) as Hk.
    { intros n Hn. apply in_range_2_10 in Hn. split; [apply has_keys_get; assumption|].
      unfold fq. rewrite dict_get_find_first_runs by exact Hn. discriminate. }
    destruct (collect_mismatches_spec truth fq (py_range 2 10) Hk) as (ms & Hms & Hspec).
    destruct (collect_mismatches_report truth fq (py_range 2 10) Hk) as (ms' & Hms' & Hflat).
    rewrite Hms in Hms'. injection Hms' as <-. rewrite py_range_2_10 in Hflat.
    assert (debug_check truth q
            = match ms with
              | [] => Run [banner; passed_message] Returns
              | _ => Run (failure_head ++ flat_map report_lines ms
                            ++ ["Exiting due to logic errors." ++ nl]%string)
                         (Raises (SystemExit 1))
              end) as Hr.
    { unfold debug_check. fold fq. rewrite Hms. destruct ms; reflexivity. }
    split.
    - intros Hall. rewrite Hr. destruct ms as [|m ms']; [reflexivity|exfalso].
      destruct (proj1 (Hspec m) (or_introl eq_refl)) as (H1 & H2 & H3 & H4).
      apply in_range_2_10 in H1. rewrite (Hall _ H1), H3 in H2. congruence.
    - intros (n & Hn & Hd).
      pose proof (has_keys_get truth n Hkeys Hn) as Ht.
      destruct (dict_get n truth) as [[es ep]|] eqn:Et; [|congruence].
      assert (dict_get n fq = Some (first_run q n)) as Ef
        by (apply dict_get_find_first_runs; exact Hn).
      destruct (first_run q n) as [fs fp].
      assert (In (Mismatch n es ep fs fp) ms) as Hin.
      { apply Hspec. cbn [mm_n mm_exp_seq mm_exp_pos mm_fnd_seq mm_fnd_pos].
        repeat split; try assumption; [apply in_range_2_10, Hn | congruence]. }
      rewrite Hr. destruct ms as [|m0 ms']; [destruct Hin|].
      cbn [ended stdout]. split; [reflexivity|]. rewrite Hflat. reflexivity. }
  (* the report of one key, spelled out *)
  assert (forall n, In n [2; 3; 4; 5; 6; 7; 8; 9] ->
            (if decide (dict_get n truth = dict_get n found) then []
             else match dict_get n truth, dict_get n found with
                  | Some (es, ep), Some (fs, fp) => report_lines (Mismatch n es ep fs fp)
                  | _, _ => []
                  end)
            = (if decide (dict_get n truth = dict_get n found) then [] else report n))
    as Hrep.
  { intros n Hn. rewrite <- py_range_2_10 in Hn. apply in_range_2_10 in Hn.
    destruct (decide _); [reflexivity|]. unfold report.
    destruct (dict_get n truth) as [[es ep]|]; [|reflexivity].
    destruct (dict_get n found) as [[fs fp]|]; [|reflexivity].
    unfold report_lines. cbn [mm_n mm_exp_seq mm_exp_pos mm_fnd_seq mm_fnd_pos].
    rewrite (str_int_digit n Hn). reflexivity. }
  destruct (Hcheck prefix) as [Hpass Hfail]. fold found r in Hpass, Hfail.
  assert ((exists n, 2 <= n <= 9 /\ dict_get n truth <> dict_get n found)
          -> ended r = Raises (SystemExit 1)
             /\ stdout r
                = [banner; (eol ++ "DEBUG CHECK FAILED! Discrepancies:" ++ eol ++ eol)%string]
                    ++ flat_map (fun n =>
                                   if decide (dict_get n truth = dict_get n found)
                                   then [] else report n)
                                [2; 3; 4; 5; 6; 7; 8; 9]
                    ++ [("Exiting due to logic errors." ++ eol)%string]) as Hfail'.
  { intros H. destruct (Hfail H) as [H1 H2]. split; [exact H1|].
    rewrite H2, (flat_map_ext_in _ _ _ Hrep). reflexivity. }
  split; [reflexivity|].
  split; [exact Hpass|].
  split; [exact Hfail'|].
  split; [|split; [|split; [|split; [|split; [|split]]]]].
  - intros n Hn Hd.
    pose proof (has_keys_get truth n Hkeys Hn) as Ht.
    assert (dict_get n found = Some (first_run prefix n)) as Ef
      by (apply dict_get_find_first_runs; exact Hn).
    split.
    { unfold report. destruct (dict_get n truth) as [[es ep]|]; [|congruence].
      rewrite Ef. destruct (first_run prefix n). reflexivity. }
    destruct (Hfail' (ex_intro _ n (conj Hn Hd))) as [_ Hout].
    apply (proj2 (in_range_2_10 n)) in Hn. rewrite py_range_2_10 in Hn.
    destruct (in_split _ _ Hn) as (l1 & l2 & Hl).
    rewrite Hout, Hl, flat_map_app. cbn [flat_map].
    destruct (decide (dict_get n truth = dict_get n found)); [contradiction|].
    set (f := fun k => if decide (dict_get k truth = dict_get k found)
                       then [] else report k).
    exists ([banner; (eol ++ "DEBUG CHECK FAILED! Discrepancies:" ++ eol ++ eol)%string]
              ++ flat_map f l1),
      (flat_map f l2 ++ [("Exiting due to logic errors." ++ eol)%string]).
    rewrite <- !app_assoc. reflexivity.
  - intros s Hs. apply py_repr_copies. intros c Hc.
    destruct (Hs c Hc) as (H1 & H2 & H3). apply escape_char_plain; assumption.
  - intros n fs fp. apply py_repr_found.
  - reflexivity.
  - intros z k Hk Hz. apply str_int_decimal; assumption.
  - intros fuel h w k. eexists.
    split; [apply get_phi_prefix_eq; discriminate|].
    destruct (Hcheck (Py.slice_to (format_phi (20000 + 50)) 20000)) as [Hp Hf].
    split.
    + intros Hall. unfold main. rewrite run_debug_check_eq, (Hp Hall). reflexivity.
    + intros Hsome. destruct (Hf Hsome) as [He _].
      split; [|exact He]. unfold main. rewrite run_debug_check_eq, He. reflexivity.
  - intros fuel h w.
    destruct (curses_main_starts fuel h w) as (c & Hc). exists c.
    unfold main. rewrite run_debug_check_eq.
    unfold debug_check. rewrite reference_scan. cbn [ended]. rewrite Hc. reflexivity.
Qed.

Lemma C8_verification_failure_reporting_witness :
  has_keys GROUND_TRUTH = true /\
  ended (debug_check GROUND_TRUTH "1.61803398874989") = Raises (SystemExit 1) /\
  stdout (debug_check GROUND_TRUTH "1.61803398874989")
  = [ banner;
      String "010" ("DEBUG CHECK FAILED! Discrepancies:" ++ String "010" (String "010" ""));
      ("  n = 3:" ++ String "010" "")%string;
      ("    Expected: seq = '222', pos = 131" ++ String "010" "")%string;
      ("    Found:    seq = 'N/A', pos = None" ++ String "010" (String "010" ""))%string;
      ("  n = 4:" ++ String "010" "")%string;
      ("    Expected: seq = '4444', pos = 1218" ++ String "010" "")%string;
      ("    Found:    seq = 'N/A', pos = None" ++ String "010" (String "010" ""))%string;
      ("  n = 5:" ++ String "010" "")%string;
      ("    Expected: seq = '99999', pos = 6401" ++ String "010" "")%string;
      ("    Found:    seq = 'N/A', pos = None" ++ String "010" (String "010" ""))%string;
      ("Exiting due to logic errors." ++ String "010" "")%string ].
Proof.
  split; [reflexivity|].
  destruct (C8_verification_failure_reporting GROUND_TRUTH "1.61803398874989" eq_refl)
    as (_ & _ & H & _).
  apply H. exists 5. split; [lia | discriminate].
Defined.

(** The claim speaks of nine pairs; [range(2, 10)] gives eight, and the
    reference table has no ninth entry. *)
Lemma C8_counterexample :
  py_range 2 10 = [2; 3; 4; 5; 6; 7; 8; 9]
  /\ map fst (find_first_runs "1.61803398874989" 9) = [2; 3; 4; 5; 6; 7; 8; 9]
  /\ length (find_first_runs "1.61803398874989" 9) <> 9%nat
  /\ length GROUND_TRUTH <> 9%nat
  /\ dict_get 1 GROUND_TRUTH = None
  /\ dict_get 10 GROUND_TRUTH = None.
Proof. repeat split; discriminate. Qed.

End DebugCheck.

(* ================================================================== *)
(** * 16. The live generator *)
(* ================================================================== *)

Section LiveGenerator.

Lemma string_get_all (P : ascii -> bool) (s : string) : forall i,
  all_chars P s = true -> (i < String.length s)%nat ->
  exists d, String.get i s = Some d /\ P d = true.
Proof.
  induction s as [|c s IH]; intros i Hall Hi; simpl in *; [lia|].
  apply andb_true_iff in Hall as [Hc Hs].
  destruct i as [|i]; [exists c; split; [reflexivity | exact Hc]|].
  apply IH; [exact Hs | lia].
Qed.

(** Every character of [get_phi_prefix N] after the first two is a
    decimal digit. *)
Lemma get_phi_prefix_digit (fuel : nat) (N i : Z) :
  2 <= i < N -> N + 50 <= MAX_PREC ->
  exists s d,
    get_phi_prefix fuel N = Returned s
    /\ String.get (Z.to_nat i) s = Some d
    /\ Py.is_decimal_digit d = true.
Proof.
  intros Hi HM. rewrite get_phi_prefix_shape by lia.
  pose proof (length_phi_frac (N + 50) ltac:(lia)) as Hl. unfold Py.len in Hl.
  destruct (string_get_all Py.is_decimal_digit
              (Py.take (Z.to_nat (N - 2)) (phi_frac (N + 50))) (Z.to_nat (i - 2)))
    as (d & Hd & Hdig).
  - apply all_chars_take, phi_frac_decimal.
  - rewrite length_take by lia. lia.
  - eexists. exists d. split; [reflexivity|]. split; [|exact Hdig].
    replace (Z.to_nat i) with (S (S (Z.to_nat (i - 2)))) by lia. exact Hd.
Qed.

(** The generator never stalls: from its top the outer loop reaches a
    [yield] in one round, on the string computed at [printed + 10]. *)
Lemma gen_resume_yields (printed : Z) :
  0 <= printed ->
  exists ch,
    gen_resume 1 printed = Some (ch, GenYielded printed (format_phi (printed + 10)))
    /\ String.get (Z.to_nat printed) (format_phi (printed + 10)) = Some ch.
Proof.
  intros Hp.
  pose proof (len_format_phi (printed + 10) ltac:(lia)) as Hl.
  assert (forall s i, String.get i s = None -> (String.length s <= i)%nat) as Hnone.
  { clear. induction s as [|c s IH]; intros [|i] H; simpl in *; try lia; try discriminate.
    specialize (IH i H). lia. }
  cbn [gen_resume].
  generalize dependent (format_phi (printed + 10)). intros s Hl.
  rewrite Hl.
  destruct (Z.ltb_spec printed (printed + 10 + 1)); [|lia].
  destruct (String.get (Z.to_nat printed) s) as [ch|] eqn:E.
  - exists ch. split; reflexivity.
  - exfalso. unfold Py.len in Hl. specialize (Hnone _ _ E). lia.
Qed.

(** C1, on the code.  The live generator starts over: its first eleven
    characters are "1.618033988", the string computed at precision 10,
    so the second live character is the decimal point; the character
    at position [PHI_PREFIX_LENGTH + 2] of the digits [get_phi_prefix]
    computes is a decimal digit.  Meanwhile the position counter goes
    on from where the first loop left it. *)
Theorem C1_live_generator_restarts :
  live_chars 1 11 phi_digit_generator = Some (Py.chars "1.618033988")
  /\ (exists g1 g2,
        gen_next 1 phi_digit_generator = Some ("1"%char, g1)
        /\ gen_next 1 g1 = Some ("."%char, g2))
  /\ (exists s d,
        get_phi_prefix 0 (PHI_PREFIX_LENGTH + 2) = Returned s
        /\ String.get (Z.to_nat (PHI_PREFIX_LENGTH + 2 - 1)) s = Some d
        /\ Py.is_decimal_digit d = true
        /\ d <> "."%char)
  /\ (forall st ch, total_pos (live_step st ch) = total_pos st + 1).
Proof.
  split; [vm_compute; reflexivity|].
  split.
  { exists (GenYielded 0 "1.618033988"), (GenYielded 1 "1.618033988").
    split; vm_compute; reflexivity. }
  split.
  - destruct (get_phi_prefix_digit 0 (PHI_PREFIX_LENGTH + 2) (PHI_PREFIX_LENGTH + 2 - 1))
      as (s & d & Hs & Hd & Hdig).
    { unfold PHI_PREFIX_LENGTH. lia. }
    { discriminate. }
    exists s, d.
    split; [exact Hs|]. split; [exact Hd|]. split; [exact Hdig|].
    intros ->. discriminate Hdig.
  - intros st ch. unfold live_step.
    destruct (negb (Py.isdigit ch)); [reflexivity|].
    destruct (advance_run _ _ _). reflexivity.
Qed.

End LiveGenerator.

(* ================================================================== *)
(** * 17. Further properties of the engine, the scanner and the
    streaming loops *)
(* ================================================================== *)

Section EngineEdges.

Lemma take_take (a : nat) : forall b s,
  (a <= b)%nat -> Py.take a (Py.take b s) = Py.take a s.
Proof.
  induction a as [|a IH]; intros b s H; [destruct b, s; reflexivity|].
  destruct b as [|b]; [lia|]. destruct s as [|c s]; [reflexivity|].
  cbn [Py.take]. rewrite IH by lia. reflexivity.
Qed.

(** The first [j] fractional digits computed at any precision are those
    of the golden ratio, for [j] up to 20,042. *)
Lemma phi_digits_exact (p j : Z) :
  2 <= p -> 0 <= j <= 20042 -> j + 6 <= p - 1 ->
  Py.take (Z.to_nat j) (phi_frac p)
  = digits_fixed (Z.to_nat j) (phi_floor j) EmptyString.
Proof.
  intros Hp Hj Hjp. unfold phi_frac.
  replace (Z.to_nat (p - 1)) with (Z.to_nat j + Z.to_nat (p - 1 - j))%nat by lia.
  rewrite take_digits_fixed. rewrite Z2Nat.id by lia.
  rewrite (exact_cut p j 6); [reflexivity | lia | lia | lia | lia |].
  pose proof reference_digits as H.
  apply andb_true_iff in H as [H Hlast]. apply andb_true_iff in H as [_ Hscan].
  change (10 ^ 6 - 1) with 999999.
  apply (no_nines_from_scan 20050); [lia | exact Hscan | exact Hlast | lia].
Qed.



(** X2.  The length of the result at the edges: exactly [N] characters
    for [N = 0] ("") and [N = 1] ("1") as for larger [N]; a negative
    [N] down to -49 is no error: the slice [s[:N]] then drops the last
    [-N] characters of the [N + 51] computed at precision [N + 50]. *)
Theorem get_phi_prefix_length (fuel : nat) (N : Z) :
  -48 <= N -> N + 50 <= MAX_PREC ->
  exists s,
    get_phi_prefix fuel N = Returned s
    /\ Py.len s = (if N <? 0 then Z.max 0 (2 * N + 51) else N)
    /\ (N = 0 -> s = "")
    /\ (N = 1 -> s = "1").
Proof.
  intros HN HM.
  pose proof (len_format_phi (N + 50) ltac:(lia)) as Hl.
  pose proof (format_phi_eq (N + 50) ltac:(lia)) as Hf.
  assert (get_phi_prefix fuel N = Returned (Py.slice_to (format_phi (N + 50)) N)) as E.
  { unfold get_phi_prefix. rewrite valid_prec_true by lia.
    destruct fuel; cbn [get_phi_prefix_loop]; rewrite Hl;
      (destruct (Z.ltb_spec (N + 50 + 1) N); [lia | reflexivity]). }
  eexists. split; [exact E|].
  generalize dependent (format_phi (N + 50)). intros s Hl Hf _.
  split; [|split].
  - destruct (Z.ltb_spec N 0).
    + unfold Py.slice_to. destruct (Z.leb_spec 0 N); [lia|].
      unfold Py.len in *. rewrite length_take by lia. lia.
    + apply slice_to_length. lia.
  - intros ->. rewrite Hf. reflexivity.
  - intros ->. rewrite Hf. reflexivity.
Qed.

Lemma get_phi_prefix_length_witness :
  -48 <= -3 /\ -3 + 50 <= MAX_PREC /\
  exists s, get_phi_prefix 0 (-3) = Returned s /\ Py.len s = 45.
Proof.
  split; [lia|]. split; [discriminate|].
  destruct (get_phi_prefix_length 0 (-3) ltac:(lia) ltac:(discriminate))
    as (s & H1 & H2 & _).
  exists s. split; [exact H1 | exact H2].
Defined.

(** The first [L1] characters computed for a longer result are the
    result for [L1]. *)
Lemma slice_of_slice (L1 L2 : Z) :
  0 <= L1 <= L2 -> L1 <= 20044 ->
  Py.slice_to (format_phi (L1 + 50)) L1
  = Py.slice_to (Py.slice_to (format_phi (L2 + 50)) L2) L1.
Proof.
  intros HL H1.
  rewrite (format_phi_eq (L1 + 50)), (format_phi_eq (L2 + 50)) by lia.
  unfold Py.slice_to.
  destruct (Z.leb_spec 0 L1); [|lia]. destruct (Z.leb_spec 0 L2); [|lia].
  rewrite take_take by lia.
  destruct (Z.le_gt_cases 2 L1) as [Hbig|Hsmall].
  - replace (Z.to_nat L1) with (S (S (Z.to_nat (L1 - 2)))) by lia.
    cbn [Py.take]. do 2 f_equal.
    rewrite !phi_digits_exact by lia. reflexivity.
  - assert (L1 = 0 \/ L1 = 1) as [-> | ->] by lia; reflexivity.
Qed.

(** X3.  Monotonic prefix, up to 20,044 characters: the result for a
    length [L1 <= 20044] is the first [L1] characters of the result
    for any length [L2 >= L1]. *)
Theorem prefix_of_longer_result (fuel1 fuel2 : nat) (L1 L2 : Z) :
  0 <= L1 <= L2 -> L1 <= 20044 -> L2 + 50 <= MAX_PREC ->
  exists s1 s2,
    get_phi_prefix fuel1 L1 = Returned s1
    /\ get_phi_prefix fuel2 L2 = Returned s2
    /\ s1 = Py.slice_to s2 L1.
Proof.
  intros HL H1 H2.
  exists (Py.slice_to (format_phi (L1 + 50)) L1), (Py.slice_to (format_phi (L2 + 50)) L2).
  split; [apply get_phi_prefix_eq; lia|].
  split; [apply get_phi_prefix_eq; lia|].
  apply slice_of_slice; assumption.
Qed.

Lemma prefix_of_longer_result_witness :
  0 <= 8 <= 12 /\ 8 <= 20044 /\ 12 + 50 <= MAX_PREC /\
  get_phi_prefix 0 8 = Returned (Py.slice_to "1.6180339887" 8).
Proof.
  split; [lia|]. split; [lia|]. split; [discriminate|].
  destruct (prefix_of_longer_result 0 0 8 12 ltac:(lia) ltac:(lia) ltac:(discriminate))
    as (s1 & s2 & H1 & H2 & H3).
  rewrite H1, H3. f_equal. f_equal.
  assert (Returned s2 = Returned "1.6180339887") as E
    by (rewrite <- H2; vm_compute; reflexivity).
  injection E as E. exact E.
Defined.

End EngineEdges.

Section ScannerFacts.

Local Open Scope list_scope.

Lemma first_run_from_app_found (n : Z) (l l' : list ascii) : forall i rc rl seq pos,
  first_run_from n i rc rl l = (seq, Some pos) ->
  first_run_from n i rc rl (l ++ l') = (seq, Some pos).
Proof.
  induction l as [|c l IH]; intros i rc rl seq pos H; cbn [first_run_from] in H;
    [discriminate H|].
  cbn [app first_run_from].
  destruct (negb (Py.isdigit c)); [apply IH; exact H|].
  destruct (_ =? n); [exact H | apply IH; exact H].
Qed.

(** X4.  What was found stays found: a first run recorded over a text
    is recorded, with the same sequence and position, over any
    extension of the text. *)
Theorem find_first_runs_extension (s t : string) (max_n n : Z) (seq : string) (pos : Z) :
  2 <= n <= max_n ->
  dict_get n (find_first_runs s max_n) = Some (seq, Some pos) ->
  dict_get n (find_first_runs (s ++ t) max_n) = Some (seq, Some pos).
Proof.
  intros Hn. rewrite !dict_get_find_first_runs by exact Hn.
  unfold first_run. intros [= H]. rewrite chars_app.
  rewrite (first_run_from_app_found n _ _ _ _ _ _ _ H). reflexivity.
Qed.

Lemma find_first_runs_extension_witness :
  2 <= 2 <= 9
  /\ dict_get 2 (find_first_runs "1.6180339887" 9) = Some ("33", Some 7)
  /\ dict_get 2 (find_first_runs ("1.6180339887" ++ "4989") 9) = Some ("33", Some 7).
Proof.
  split; [lia|]. split; [reflexivity|].
  apply (find_first_runs_extension "1.6180339887" "4989" 9 2 "33" 7); [lia | reflexivity].
Defined.

Lemma replicate_split {A : Type} (a b : nat) (c : A) :
  replicate (a + b) c = replicate a c ++ replicate b c.
Proof. induction a as [|a IH]; [reflexivity|]. cbn [Nat.add replicate app]. rewrite IH. reflexivity. Qed.

(** X5.  The entries are ordered by length: where the run of [n] is
    missing, so is the run of any [m >= n]; where both are found, the
    one of [n] starts no later. *)
Theorem find_first_runs_monotone (s : string) (max_n n m : Z) :
  2 <= n -> n <= m -> m <= max_n ->
  (forall seq, dict_get n (find_first_runs s max_n) = Some (seq, None) ->
               dict_get m (find_first_runs s max_n) = Some ("N/A", None))
  /\ (forall seqn posn seqm posm,
        dict_get n (find_first_runs s max_n) = Some (seqn, Some posn) ->
        dict_get m (find_first_runs s max_n) = Some (seqm, Some posm) ->
        posn <= posm).
Proof.
  intros Hn Hnm Hm.
  rewrite !dict_get_find_first_runs by lia. unfold first_run.
  pose proof (first_run_from_correct n (Py.chars s) [] ltac:(lia)
                (no_run_nil n ltac:(lia))) as Cn.
  pose proof (first_run_from_correct m (Py.chars s) [] ltac:(lia)
                (no_run_nil m ltac:(lia))) as Cm.
  cbn [length trail fst snd] in Cn, Cm. change (Z.of_nat 0) with 0 in Cn, Cm.
  change (reverse [] ++ Py.chars s) with (Py.chars s) in Cn, Cm.
  assert (forall c A B,
             Py.chars s = A ++ replicate (Z.to_nat m) c ++ B ->
             Py.chars s = A ++ replicate (Z.to_nat n) c
                            ++ (replicate (Z.to_nat (m - n)) c ++ B)) as Hwin.
  { intros c A B H. rewrite H. f_equal. rewrite app_assoc. f_equal.
    rewrite <- replicate_split. f_equal. lia. }
  destruct (first_run_from n 0 None 0 (Py.chars s)) as [sn [pn|]];
    destruct (first_run_from m 0 None 0 (Py.chars s)) as [sm [pm|]].
  - split; [intros seq [= _]|].
    intros seqn posn seqm posm [= _ <-] [= _ <-].
    destruct Cn as (c & A & B & Hc & _ & _ & -> & _ & Hmin).
    destruct Cm as (c' & A' & B' & Hc' & _ & HA' & -> & _).
    specialize (Hmin c' A' _ Hc' (Hwin _ _ _ HA')). lia.
  - split; [intros seq [= _]|]. intros seqn posn seqm posm _ [= _].
  - split; [|intros seqn posn seqm posm [= _]].
    intros seq _. exfalso.
    destruct Cn as [_ Hno].
    destruct Cm as (c' & A' & B' & Hc' & _ & HA' & _).
    exact (Hno c' A' _ Hc' (Hwin _ _ _ HA')).
  - split; [|intros seqn posn seqm posm [= _]].
    intros seq _. destruct Cm as [-> _]. reflexivity.
Qed.

Lemma find_first_runs_monotone_witness :
  2 <= 2 /\ 2 <= 3 /\ 3 <= 9
  /\ (forall seqn posn seqm posm,
        dict_get 2 (find_first_runs "1.0112223333" 9) = Some (seqn, Some posn) ->
        dict_get 3 (find_first_runs "1.0112223333" 9) = Some (seqm, Some posm) ->
        posn <= posm).
Proof.
  split; [lia|]. split; [lia|]. split; [lia|].
  apply (find_first_runs_monotone "1.0112223333" 9 2 3); lia.
Defined.

End ScannerFacts.

Section StreamingFacts.

Local Open Scope list_scope.

Lemma batch_phase_total_pos (l : list ascii) : forall st,
  total_pos (batch_phase st l) = total_pos st + Z.of_nat (length l).
Proof.
  induction l as [|ch l IH]; intros st; cbn [batch_phase length]; [lia|].
  rewrite IH. unfold batch_step.
  destruct (negb (Py.isdigit ch)); cbn [total_pos]; [lia|].
  destruct (advance_run _ _ _) as [rc rl].
  destruct (decide _); cbn [total_pos]; lia.
Qed.

Lemma batch_phase_digit_win (l : list ascii) : forall st,
  length (digit_win (batch_phase st l))
  = (length (digit_win st) + length (List.filter Py.isdigit l))%nat.
Proof.
  induction l as [|ch l IH]; intros st; cbn [batch_phase List.filter length]; [lia|].
  rewrite IH. unfold batch_step.
  destruct (Py.isdigit ch); cbn [negb digit_win length]; [|lia].
  destruct (advance_run _ _ _) as [rc rl].
  destruct (decide _); cbn [digit_win length]; lia.
Qed.

Lemma size_all_lengths : size all_lengths = 8%nat.
Proof. vm_compute. reflexivity. Qed.

Lemma all_lengths_range (n : Z) : n ∈ all_lengths -> 2 <= n <= 9.
Proof.
  unfold all_lengths. rewrite py_range_2_10. rewrite elem_of_list_to_set.
  rewrite !elem_of_cons. rewrite elem_of_nil. lia.
Qed.

Lemma tidy_initial : tidy initial_screen.
Proof.
  split; [|split].
  - intros n Hn. apply all_lengths_range in Hn. split; [exact Hn | apply initial_shown, Hn].
  - intros n Hn Hout. exfalso. apply Hout. apply all_lengths_elem, Hn.
  - cbn [pauses remaining initial_screen]. rewrite size_all_lengths. reflexivity.
Qed.

Lemma tidy_step (st : screen) (ch : ascii) : tidy st -> tidy (batch_step st ch).
Proof.
  intros (Hin & Hout & Hsize). unfold batch_step.
  destruct (negb (Py.isdigit ch)); [split; [exact Hin | split; [exact Hout | exact Hsize]]|].
  destruct (advance_run _ _ _) as [rc rl].
  destruct (decide (rl ∈ remaining st)) as [Hrl|Hrl];
    [|split; [exact Hin | split; [exact Hout | exact Hsize]]].
  unfold tidy, shown. cbn [remaining header pauses].
  split; [|split].
  - intros n Hn. apply elem_of_difference in Hn as [Hn Hne].
    rewrite elem_of_singleton in Hne.
    rewrite lookup_insert_ne by congruence. apply Hin, Hn.
  - intros n Hn Hnot. destruct (Z.eq_dec rl n) as [->|Hne].
    + rewrite lookup_insert_eq. cbn [row_seq row_pos]. eexists. eexists. reflexivity.
    + rewrite lookup_insert_ne by exact Hne. apply Hout; [exact Hn|].
      intros H. apply Hnot. apply elem_of_difference. split; [exact H|].
      rewrite elem_of_singleton. congruence.
  - rewrite size_difference by (apply singleton_subseteq_l; exact Hrl).
    rewrite size_singleton.
    assert (size (remaining st) <> 0)%nat.
    { intros E. apply size_empty_inv in E. apply (proj1 (elem_of_equiv_empty _) E rl Hrl). }
    lia.
Qed.

Lemma tidy_phase (l : list ascii) : forall st, tidy st -> tidy (batch_phase st l).
Proof.
  induction l as [|ch l IH]; intros st H; [exact H|].
  cbn [batch_phase]. apply IH, tidy_step, H.
Qed.

(** X6.  The bookkeeping of the first loop, after any part of the
    static prefix: the position counter is the number of characters
    read; the digit window received one cell per digit; a length is
    still awaited exactly when its row shows "N/A"; and one pause was
    made per length found. *)
Theorem batch_phase_bookkeeping (l : list ascii) :
  let st := batch_phase initial_screen l in
  total_pos st = Z.of_nat (length l)
  /\ length (digit_win st) = length (List.filter Py.isdigit l)
  /\ (forall n, n ∈ remaining st -> 2 <= n <= 9)
  /\ (forall n, 2 <= n <= 9 ->
        (n ∈ remaining st <-> shown st n = Some ("N/A", None)))
  /\ (pauses st + size (remaining st) = 8)%nat.
Proof.
  intros st.
  destruct (tidy_phase l initial_screen tidy_initial) as (Hin & Hout & Hsize).
  fold st in Hin, Hout, Hsize.
  split; [unfold st; rewrite batch_phase_total_pos; reflexivity|].
  split; [unfold st; rewrite batch_phase_digit_win; reflexivity|].
  split; [intros n Hn; apply Hin, Hn|].
  split; [|exact Hsize].
  intros n Hn. split; [intros H; apply Hin, H|].
  intros Hna. destruct (decide (n ∈ remaining st)) as [H|H]; [exact H|].
  destruct (Hout n Hn H) as (seq & pos & E). congruence.
Qed.

End StreamingFacts.

Section GeneratorFacts.

Local Open Scope list_scope.








End GeneratorFacts.

Section StartupFacts.

Local Open Scope list_scope.


Lemma take_all (n : nat) : forall s, (String.length s <= n)%nat -> Py.take n s = s.
Proof.
  induction n as [|n IH]; intros [|c s] H; simpl in *; try reflexivity; try lia.
  rewrite IH by lia. reflexivity.
Qed.









Lemma collect_mismatches_missing (truth found : dict) (n : Z) (ns : list Z) :
  In n ns -> dict_get n truth = None -> collect_mismatches ns truth found = None.
Proof.
  induction ns as [|k ns IH]; intros Hin Hn; [destruct Hin|].
  cbn [collect_mismatches].
  destruct Hin as [-> | Hin].
  - rewrite Hn. reflexivity.
  - rewrite (IH Hin Hn).
    destruct (dict_get k truth) as [[es ep]|]; [|reflexivity].
    destruct (dict_get k found) as [[fs fp]|]; reflexivity.
Qed.

(** X9.  A reference table without an entry for one of the lengths
    2..9: the check raises [KeyError] right after its banner, whatever
    the other entries, and [main] ends there, without a report and
    without reaching [curses_main]. *)
Theorem main_missing_key (truth : dict) (fuel : nat) (h w : Z) (k : nat) (n : Z) :
  2 <= n <= 9 -> dict_get n truth = None ->
  (forall prefix, debug_check truth prefix = Run [banner] (Raises KeyError))
  /\ run_debug_check truth fuel = Some (Run [banner] (Raises KeyError))
  /\ main truth fuel h w k = Some (Run [banner] (Raises KeyError), None).
Proof.
  intros Hn Hmiss.
  assert (forall prefix, debug_check truth prefix = Run [banner] (Raises KeyError)) as H.
  { intros prefix. unfold debug_check.
    rewrite (collect_mismatches_missing truth _ n); [reflexivity | | exact Hmiss].
    apply in_range_2_10, Hn. }
  split; [exact H|].
  assert (run_debug_check truth fuel = Some (Run [banner] (Raises KeyError))) as Hr.
  { rewrite run_debug_check_eq, H. reflexivity. }
  split; [exact Hr|]. unfold main. rewrite Hr. reflexivity.
Qed.

Lemma main_missing_key_witness :
  2 <= 9 <= 9 /\ dict_get 9 [(2, ("33", Some 7))] = None /\
  debug_check [(2, ("33", Some 7))] "1.61803398874989" = Run [banner] (Raises KeyError).
Proof.
  split; [lia|]. split; [reflexivity|].
  destruct (main_missing_key [(2, ("33", Some 7))] 0 24 80 0 9 ltac:(lia) eq_refl)
    as (H & _).
  apply H.
Defined.

(** X10.  The legend is drawn on the rows the status lines use: after
    [print_legend] and the loop that writes the status lines, row [n]
    holds "Len n: N/A" from column 2, and of the legend label only the
    sample digits beyond it, [n - 4] of them: nothing for the lengths
    2, 3 and 4.  These keep the reverse video and the colour pair of
    the legend, which is the pair [HIGHLIGHT_PAIR] gives the row of a
    length found. *)
Theorem legend_under_status_rows (width n : Z) :
  80 <= width -> 2 <= n <= 9 ->
  header_row_drawn width n
  = [None; None]
      ++ map Some (glyphs ("Len " ++ String (Py.digit_char n) ": N/A") 1 false false)
      ++ map Some (glyphs (Py.str_mul (Py.digit_char n) (n - 4))
                          (legend_pair n) true false)
  /\ Some (legend_pair n) = HIGHLIGHT_PAIR n.
Proof.
  intros Hw Hn. unfold header_row_drawn, legend_label.
  assert (forall s, (String.length s <= 15)%nat -> Py.slice_to s (width - 4) = s) as Hcut.
  { intros s Hs. unfold Py.slice_to. destruct (Z.leb_spec 0 (width - 4)); [|lia].
    apply take_all. lia. }
  destruct (length_cases n Hn) as [-> | [-> | [-> | [-> | [-> | [-> | [-> | ->]]]]]]];
    (rewrite Hcut by (vm_compute; lia)); split; reflexivity.
Qed.

Lemma legend_under_status_rows_witness :
  80 <= 80 /\ 2 <= 3 <= 9 /\
  header_row_drawn 80 3
  = [None; None] ++ map Some (glyphs "Len 3: N/A" 1 false false).
Proof.
  split; [lia|]. split; [lia|].
  destruct (legend_under_status_rows 80 3 ltac:(lia) ltac:(lia)) as [H _].
  exact H.
Defined.

End StartupFacts.
